(** * The sw64 CPU driver (src/cpu/cpu_sw64.c)

    A shallow embedding of the driver's four operations -- compare,
    update, host detection and model listing -- and of the model map they
    are built on, followed by the properties the driver's description
    states about them.

    Conventions of the embedding.
    - A C string is a [string]; reading the byte under a [char *] is
      [deref], which yields NUL at the end of the text.
    - A pointer that may be NULL is an [option].
    - An [int] status or an [unsigned int] is a [Z].
    - A function that writes through a pointer argument returns the new
      content of the pointee next to its status.
    - [virReportError] stores into the thread's last-error slot; the
      functions that may report run in the state monad [vir] over that
      slot. *)

From Stdlib Require Import String Ascii List ListDec ZArith Lia Bool.
From Equations Require Import Equations.
From Equations.Prop Require Import Logic.
Import ListNotations.

Local Open Scope string_scope.
Local Open Scope Z_scope.

(* ===================================================================== *)
(** ** Error reporting *)
(* ===================================================================== *)

Inductive virErrorNumber : Type :=
| VIR_ERR_INTERNAL_ERROR
| VIR_ERR_SYSTEM_ERROR
| VIR_ERR_CONFIG_UNSUPPORTED.

Module virError.
Record t : Type := mk { code : virErrorNumber; message : string; int1 : Z }.
End virError.
Abbreviation virError := virError.t.

(** The thread-local last error: NULL until something is reported. *)
Definition virLastError : Type := option virError.

(** Computations that may report an error. *)
Definition vir (A : Type) : Type := virLastError -> A * virLastError.

Definition pure {A : Type} (a : A) : vir A := fun e => (a, e).

Definition bind {A B : Type} (m : vir A) (k : A -> vir B) : vir B :=
  fun e => let (a, e') := m e in k a e'.

Declare Scope vir_scope.
Delimit Scope vir_scope with vir.
Notation "x <- m ;; k" := (bind m (fun x => k))
  (at level 61, m at next level, right associativity) : vir_scope.
Notation "' p <- m ;; k" := (bind m (fun x => let p := x in k))
  (at level 61, p pattern, m at next level, right associativity) : vir_scope.
Notation "m ;; k" := (bind m (fun _ => k))
  (at level 61, right associativity) : vir_scope.
Local Open Scope vir_scope.

(** Modelled from the spec: the process-wide error reporting macro
    [virReportError] (declared in virerror.h).  It records the error kind
    and the formatted message; a plain report carries no system error
    number. *)
Definition virReportError (code : virErrorNumber) (msg : string) : vir unit :=
  fun _ => (tt, Some (virError.mk code msg (-1))).

(** Modelled from the spec: [virReportSystemError], the reporting macro for
    a failed system call; the report carries the underlying error number
    ("carrying the underlying I/O error"). *)
Definition virReportSystemError (theerrno : Z) (msg : string) : vir unit :=
  fun _ => (tt, Some (virError.mk VIR_ERR_SYSTEM_ERROR msg theerrno)).

Definition CPUINFO_PATH : string := "/proc/cpuinfo".

(** The error kinds of the driver's description, as the reports the code
    makes for them. *)
Definition UnknownHostModel : virError :=
  virError.mk VIR_ERR_CONFIG_UNSUPPORTED "unknown host CPU model" (-1).

Definition DuplicateModel (name : string) : virError :=
  virError.mk VIR_ERR_INTERNAL_ERROR
    ("CPU model " ++ name ++ " already defined") (-1).

Definition MalformedHostInfo : virError :=
  virError.mk VIR_ERR_INTERNAL_ERROR
    ("Missing or invalid CPU variation in " ++ CPUINFO_PATH) (-1).

Definition SourceUnavailable (theerrno : Z) : virError :=
  virError.mk VIR_ERR_SYSTEM_ERROR ("cannot open " ++ CPUINFO_PATH) theerrno.

(* ===================================================================== *)
(** ** C strings *)
(* ===================================================================== *)

Definition NUL : ascii := Ascii.zero.

(** [*str] *)
Definition deref (str : string) : ascii :=
  match str with
  | EmptyString => NUL
  | String c _ => c
  end.

(** [str++] *)
Definition incr (str : string) : string :=
  match str with
  | EmptyString => EmptyString
  | String _ s => s
  end.

(** [str += n] *)
Fixpoint advance (n : nat) (str : string) : string :=
  match n with
  | O => str
  | S n' => advance n' (incr str)
  end.

Definition strlen (s : string) : nat := String.length s.

Definition g_strdup (s : string) : string := s.

(** [STREQ(a, b)]: [strcmp(a, b) == 0]. *)
Definition STREQ (a b : string) : bool := String.eqb a b.

(** [STRPREFIX(a, b)]: [strncmp(a, b, strlen(b)) == 0]. *)
Definition STRPREFIX (a b : string) : bool := String.prefix b a.

(** GLib's locale-independent white-space test: space, form feed, newline,
    carriage return and horizontal tab. *)
Definition g_ascii_isspace (c : ascii) : bool :=
  match nat_of_ascii c with
  | 9%nat | 10%nat | 12%nat | 13%nat | 32%nat => true
  | _ => false
  end.

(* ===================================================================== *)
(** ** CPU definitions *)
(* ===================================================================== *)

Inductive virCPUMode : Type :=
| VIR_CPU_MODE_CUSTOM
| VIR_CPU_MODE_HOST_MODEL
| VIR_CPU_MODE_HOST_PASSTHROUGH
| VIR_CPU_MODE_MAXIMUM.

Inductive virCPUMatch : Type :=
| VIR_CPU_MATCH_MINIMUM
| VIR_CPU_MATCH_EXACT
| VIR_CPU_MATCH_STRICT.

Inductive virCPUCompareResult : Type :=
| VIR_CPU_COMPARE_ERROR
| VIR_CPU_COMPARE_INCOMPATIBLE
| VIR_CPU_COMPARE_IDENTICAL
| VIR_CPU_COMPARE_SUPERSET.

Inductive virCPUFeaturePolicy : Type :=
| VIR_CPU_FEATURE_FORCE
| VIR_CPU_FEATURE_REQUIRE
| VIR_CPU_FEATURE_OPTIONAL
| VIR_CPU_FEATURE_DISABLE
| VIR_CPU_FEATURE_FORBID.

Definition virCPUMode_eqb (a b : virCPUMode) : bool :=
  match a, b with
  | VIR_CPU_MODE_CUSTOM, VIR_CPU_MODE_CUSTOM
  | VIR_CPU_MODE_HOST_MODEL, VIR_CPU_MODE_HOST_MODEL
  | VIR_CPU_MODE_HOST_PASSTHROUGH, VIR_CPU_MODE_HOST_PASSTHROUGH
  | VIR_CPU_MODE_MAXIMUM, VIR_CPU_MODE_MAXIMUM => true
  | _, _ => false
  end.

(** Modelled from the spec: the CPU definition structure [virCPUDef]
    (declared in conf/cpu_conf.h), in the shape the description gives it:
    a mode, a match policy, an optional model name and a feature
    collection the architecture does not use. *)
Module virCPUDef.
Record t : Type := mk {
  mode : virCPUMode;
  match_ : virCPUMatch;
  model : option string;
  features : list string
}.

Definition set_mode (cpu : t) (v : virCPUMode) : t :=
  mk v (match_ cpu) (model cpu) (features cpu).

Definition set_match (cpu : t) (v : virCPUMatch) : t :=
  mk (mode cpu) v (model cpu) (features cpu).

Definition set_model (cpu : t) (v : option string) : t :=
  mk (mode cpu) (match_ cpu) v (features cpu).

Definition set_features (cpu : t) (v : list string) : t :=
  mk (mode cpu) (match_ cpu) (model cpu) v.
End virCPUDef.
Abbreviation virCPUDef := virCPUDef.t.

(** Modelled from the spec: [virCPUDefCopyWithoutModel] (conf/cpu_conf.c),
    "a working copy of the guest definition with its model/feature content
    cleared but its non-model attributes preserved".  The result is a
    pointer; it is NULL only for a NULL argument. *)
Definition virCPUDefCopyWithoutModel (cpu : option virCPUDef)
  : option virCPUDef :=
  match cpu with
  | None => None
  | Some cpu =>
      Some (virCPUDef.mk (virCPUDef.mode cpu) (virCPUDef.match_ cpu) None [])
  end.

(** Modelled from the spec: [virCPUDefCopyModel] (conf/cpu_conf.c), which
    copies "the host's model name and match semantics" into [dst], "a full
    copy model from host with override semantics": whatever [dst] held is
    replaced.  [resetPolicy] selects how per-feature policies are
    rewritten, which the definition shape above does not carry. *)
Definition virCPUDefCopyModel (dst src : virCPUDef) (resetPolicy : bool)
  : virCPUDef :=
  virCPUDef.mk (virCPUDef.mode dst) (virCPUDef.match_ src)
               (virCPUDef.model src) (virCPUDef.features src).

(** Modelled from the spec: [virCPUDefStealModel] (conf/cpu_conf.c), which
    replaces the model-bearing fields of [dst] with those of [src]; the
    data is transferred, so [src] no longer holds it afterwards.
    [keepVendor] concerns vendor strings, which the definition shape above
    does not carry.  Returns the new [dst] and the new [src]. *)
Definition virCPUDefStealModel (dst src : virCPUDef) (keepVendor : bool)
  : virCPUDef * virCPUDef :=
  (virCPUDef.mk (virCPUDef.mode dst) (virCPUDef.match_ dst)
                (virCPUDef.model src) (virCPUDef.features src),
   virCPUDef.mk (virCPUDef.mode src) (virCPUDef.match_ src) None []).

(* ===================================================================== *)
(** ** Compare and update *)
(* ===================================================================== *)

Definition virCPUsw64Compare (host cpu : option virCPUDef)
    (failMessages : bool) : virCPUCompareResult :=
  VIR_CPU_COMPARE_IDENTICAL.

(** Returns the status and the guest definition as the call leaves it. *)
Definition virCPUsw64Update (guest : virCPUDef) (host : option virCPUDef)
    (relative : bool) (removedPolicy : virCPUFeaturePolicy)
  : vir (Z * virCPUDef) :=
  if negb relative
     || negb (virCPUMode_eqb (virCPUDef.mode guest) VIR_CPU_MODE_HOST_MODEL)
  then pure (0, guest)
  else
    match host with
    | None =>
        virReportError VIR_ERR_CONFIG_UNSUPPORTED "unknown host CPU model" ;;
        pure (-1, guest)
    | Some host =>
        match virCPUDefCopyWithoutModel (Some guest) with
        | None => pure (-1, guest)
        | Some updated =>
            let updated := virCPUDef.set_mode updated VIR_CPU_MODE_CUSTOM in
            let updated := virCPUDefCopyModel updated host true in
            let '(guest, updated) :=
              virCPUDefStealModel guest updated false in
            let guest := virCPUDef.set_mode guest VIR_CPU_MODE_CUSTOM in
            let guest := virCPUDef.set_match guest VIR_CPU_MATCH_EXACT in
            pure (0, guest)
        end
    end.

(* ===================================================================== *)
(** ** The model map *)
(* ===================================================================== *)

Module sw64Model.
Record t : Type := mk { name : string }.
End sw64Model.
Abbreviation sw64Model := sw64Model.t.

(** The array [models] with its element count [nmodels] is a list. *)
Module sw64Map.
Record t : Type := mk { models : list sw64Model }.

Definition nmodels (map : t) : nat := List.length (models map).
End sw64Map.
Abbreviation sw64Map := sw64Map.t.

(** [g_new0(sw64Map, 1)] *)
Definition sw64Map_new0 : sw64Map := sw64Map.mk [].

(** [VIR_APPEND_ELEMENT(map->models, map->nmodels, model)]: the element is
    moved to the end of the array and the count grows by one. *)
Definition VIR_APPEND_ELEMENT (map : sw64Map) (model : sw64Model) : sw64Map :=
  sw64Map.mk (sw64Map.models map ++ [model]).

Fixpoint sw64ModelFind_from (models : list sw64Model) (name : string)
  : option sw64Model :=
  match models with
  | [] => None
  | m :: rest =>
      if STREQ (sw64Model.name m) name then Some m
      else sw64ModelFind_from rest name
  end.

Definition sw64ModelFind (map : sw64Map) (name : string) : option sw64Model :=
  sw64ModelFind_from (sw64Map.models map) name.

Definition xmlXPathContextPtr : Type := unit.

(** Returns the status and the map as the call leaves it. *)
Definition sw64ModelParse (ctxt : xmlXPathContextPtr) (name : string)
    (data : sw64Map) : vir (Z * sw64Map) :=
  let map := data in
  let model := sw64Model.mk (g_strdup name) in
  match sw64ModelFind map (sw64Model.name model) with
  | Some _ =>
      virReportError VIR_ERR_INTERNAL_ERROR
        ("CPU model " ++ sw64Model.name model ++ " already defined") ;;
      pure (-1, map)
  | None =>
      let map := VIR_APPEND_ELEMENT map model in
      pure (0, map)
  end.

(** What the capability database holds for an architecture: either it
    cannot be loaded (the loader reports [err]), or it declares a sequence
    of model names. *)
Inductive cpuMapSource : Type :=
| cpuMapUnloadable (err : virError)
| cpuMapModels (names : list string).

Definition cpuMapLoadCallback (D : Type) : Type :=
  xmlXPathContextPtr -> string -> D -> vir (Z * D).

Fixpoint cpuMapLoadModels {D : Type} (names : list string)
    (modelCB : cpuMapLoadCallback D) (data : D) : vir (Z * D) :=
  match names with
  | [] => pure (0, data)
  | name :: rest =>
      '(rc, data) <- modelCB tt name data ;;
      if rc <? 0 then pure (-1, data)
      else cpuMapLoadModels rest modelCB data
  end.

(** Modelled from the spec: the capability-database loader [cpuMapLoad]
    (cpu_map.c).  "For each declared model the loader invokes the callback
    once with the model's name", in declaration order, with the opaque
    accumulator; a callback failure aborts the load, and a database that
    cannot be read or parsed fails the load with the loader's own report.
    The vendor and feature callbacks are absent (NULL) in this driver. *)
Definition cpuMapLoad {D : Type} (db : cpuMapSource) (arch : string)
    (vendorCB featureCB : option (cpuMapLoadCallback D))
    (modelCB : cpuMapLoadCallback D) (data : D) : vir (Z * D) :=
  match db with
  | cpuMapUnloadable err =>
      (fun _ => (tt, Some err)) ;;
      pure (-1, data)
  | cpuMapModels names => cpuMapLoadModels names modelCB data
  end.

(** NULL on failure (the partly built map is freed). *)
Definition sw64LoadMap (db : cpuMapSource) : vir (option sw64Map) :=
  let map := sw64Map_new0 in
  '(rc, map) <- cpuMapLoad db "sw64" None None sw64ModelParse map ;;
  if rc <? 0 then pure None
  else pure (Some map).

Definition INT_MAX : Z := 2147483647.

(** The conversion of a [size_t] count to [int] in an assignment: the
    value is reduced modulo 2^32 into the range of a 32-bit [int]. *)
Definition int_of_size_t (n : nat) : Z :=
  let z := Z.of_nat n mod 4294967296 in
  if z <=? INT_MAX then z else z - 4294967296.

(** The argument [models] is NULL ([None]) or points to a slot that holds
    a string vector or NULL.  Returns the status and the slot as the call
    leaves it.  The element count, a [size_t], is assigned to the [int]
    status [ret]. *)
Definition virCPUsw64DriverGetModels (db : cpuMapSource)
    (models : option (option (list string)))
  : vir (Z * option (option (list string))) :=
  map <- sw64LoadMap db ;;
  match map with
  | None =>
      let models :=
        match models with
        | Some _ => Some None
        | None => None
        end in
      pure (-1, models)
  | Some map =>
      let models :=
        match models with
        | Some _ =>
            Some (Some (List.map (fun m => g_strdup (sw64Model.name m))
                                 (sw64Map.models map)))
        | None => None
        end in
      pure (int_of_size_t (sw64Map.nmodels map), models)
  end.

(* ===================================================================== *)
(** ** Host detection *)
(* ===================================================================== *)

(** The loop that skips all white space: [str] is advanced while the byte
    under it satisfies [g_ascii_isspace]. *)
Fixpoint skip_whitespace (str : string) : string :=
  match str with
  | EmptyString => EmptyString
  | String c s => if g_ascii_isspace c then skip_whitespace s else str
  end.

Definition UINT_MAX : Z := 4294967295.

Definition is_digit (c : ascii) : bool :=
  (48 <=? Z.of_nat (nat_of_ascii c)) && (Z.of_nat (nat_of_ascii c) <=? 57).

Definition digit_value (c : ascii) : Z := Z.of_nat (nat_of_ascii c) - 48.

(** Reads the decimal digits at the start of [s] on top of the value [acc]
    read so far; returns the value and the text after the last digit. *)
Fixpoint read_digits (s : string) (acc : Z) : Z * string :=
  match s with
  | EmptyString => (acc, EmptyString)
  | String c s' =>
      if is_digit c then read_digits s' (10 * acc + digit_value c)
      else (acc, s)
  end.

(** Modelled from the spec: [virStrToLong_ui] (util/virstring.c), called
    with base 10: "parse a base-10 unsigned integer immediately
    following".  The number is the run of decimal digits at the start of
    [s]; the call fails when there is no digit or when the value does not
    fit an [unsigned int].  Returns the status, the end pointer [*end_ptr]
    and the content of [*result], which a failed call leaves alone. *)
Definition virStrToLong_ui (s : string) (result : Z) : Z * string * Z :=
  let '(val, p) := read_digits s 0 in
  if is_digit (deref s) && (val <=? UINT_MAX) then (0, p, val)
  else (-1, p, result).

(** Returns the status and the content of [*mode].  The local [ui] is
    declared without an initial value and is read only after a successful
    [virStrToLong_ui] has written it; the call is given 0 for it. *)
Definition sw64CPUParseCpuModeString (str prefix : string) (mode : Z)
  : vir (Z * Z) :=
  let error :=
    virReportError VIR_ERR_INTERNAL_ERROR
      ("Missing or invalid CPU variation in " ++ CPUINFO_PATH) ;;
    pure (-1, mode) in
  if negb (STRPREFIX str prefix) then pure (1, mode)
  else
    let str := advance (strlen prefix) str in
    let str := skip_whitespace str in
    if Ascii.eqb (deref str) NUL then error
    else if negb (Ascii.eqb (deref str) ":") then pure (1, mode)
    else
      let str := incr str in
      let str := skip_whitespace str in
      if Ascii.eqb (deref str) NUL then error
      else
        let '(rc, p, ui) := virStrToLong_ui str 0 in
        if (rc <? 0)
           || (negb (Ascii.eqb (deref p) ".")
               && negb (Ascii.eqb (deref p) NUL)
               && negb (g_ascii_isspace (deref p)))
        then error
        else pure (0, ui).

(** A stream open for reading is the text that is still unread. *)
Definition FILE : Type := string.

Definition newline : ascii := ascii_of_nat 10.

(** Copies bytes of [stream] while there is room, up to and including the
    first newline; returns the copy and the rest of the stream. *)
Fixpoint fgets_read (room : nat) (stream : FILE) : string * FILE :=
  match room, stream with
  | O, _ => (EmptyString, stream)
  | S _, EmptyString => (EmptyString, EmptyString)
  | S room', String c rest =>
      if Ascii.eqb c newline then (String c EmptyString, rest)
      else let '(line, rest') := fgets_read room' rest in
           (String c line, rest')
  end.

(** [fgets(line, size, stream)]: NULL at end of input, otherwise the next
    at most [size - 1] bytes, stopping after a newline; returns the
    buffer and the stream as the call leaves it. *)
Definition fgets (size : nat) (stream : FILE) : option (string * FILE) :=
  match stream with
  | EmptyString => None
  | String _ _ => Some (fgets_read (size - 1) stream)
  end.

Lemma fgets_read_rest_le (room : nat) (s : FILE) :
  (String.length (snd (fgets_read room s)) <= String.length s)%nat.
Proof.
  revert s. induction room as [|room IH]; intros [|c s]; simpl; try lia.
  destruct (Ascii.eqb c newline); simpl; [lia|].
  specialize (IH s). destruct (fgets_read room s) as [l r]. simpl in *. lia.
Qed.

Lemma fgets_read_consumes (room : nat) (c : ascii) (s : FILE) :
  (String.length (snd (fgets_read (S room) (String c s)))
   < String.length (String c s))%nat.
Proof.
  simpl. destruct (Ascii.eqb c newline); simpl; [lia|].
  pose proof (fgets_read_rest_le room s) as Hle.
  destruct (fgets_read room s) as [l r]. simpl in *. lia.
Qed.

Lemma fgets_consumes (size : nat) (stream : FILE) (line : string)
    (rest : FILE) :
  (2 <= size)%nat ->
  fgets size stream = Some (line, rest) ->
  (String.length rest < String.length stream)%nat.
Proof.
  destruct size as [|[|room]]; try lia. intros _.
  destruct stream as [|c s]; [discriminate|].
  unfold fgets. replace (S (S room) - 1)%nat with (S room) by lia.
  intro H. injection H as H.
  pose proof (fgets_read_consumes room c s) as Hlt.
  cbn [fgets_read] in Hlt. rewrite H in Hlt. exact Hlt.
Qed.

Definition cpu_variation_prefix : string := "cpu variation".

(** Returns the status and the content of [*mode]; the last-error slot [e]
    is threaded by hand through the loop, so that the function has the
    type [FILE -> Z -> vir (Z * Z)]. *)
Equations? sw64CPUParseCpuMode (cpuinfo : FILE) (mode : Z) (e : virLastError)
  : (Z * Z) * virLastError
  by wf (String.length cpuinfo) lt :=
  sw64CPUParseCpuMode cpuinfo mode e with inspect (fgets 1024 cpuinfo) := {
    | exist _ None _ => ((0, mode), e)
    | exist _ (Some (line, cpuinfo')) Hread
        with sw64CPUParseCpuModeString line cpu_variation_prefix mode e := {
        | ((rc, mode'), e') =>
            if rc <? 0 then ((-1, mode'), e')
            else sw64CPUParseCpuMode cpuinfo' mode' e' } }.
Proof.
  apply (fgets_consumes 1024 cpuinfo line cpuinfo'); [lia | assumption].
Qed.

(** The files of the host: opening a path for reading fails with an error
    number or gives the text of the file. *)
Definition filesystem : Type := string -> Z + string.

(** [fopen(path, mode)] for reading: NULL with [errno] set, or a stream at
    the start of the file. *)
Definition fopen (fs : filesystem) (path mode : string) : Z + FILE :=
  fs path.

Definition virDomainCapsCPUModels : Type := unit.

(** The local [mode] is declared without an initial value; [uninit] is
    whatever it holds when the scan starts.  Returns the status and the
    definition [cpu] as the call leaves it. *)
Definition virCPUsw64GetHost (fs : filesystem) (uninit : Z)
    (cpu : virCPUDef) (models : option virDomainCapsCPUModels)
  : vir (Z * virCPUDef) :=
  let mode := uninit in
  match fopen fs CPUINFO_PATH "r" with
  | inl theerrno =>
      virReportSystemError theerrno ("cannot open " ++ CPUINFO_PATH) ;;
      pure (-1, cpu)
  | inr cpuinfo =>
      '(ret, mode) <- sw64CPUParseCpuMode cpuinfo mode ;;
      if ret <? 0 then pure (ret, cpu)
      else if mode =? 3 then
        pure (ret, virCPUDef.set_model cpu (Some (g_strdup "core3")))
      else if mode =? 4 then
        pure (ret, virCPUDef.set_model cpu (Some (g_strdup "core4")))
      else pure (ret, cpu)
  end.

(* ===================================================================== *)
(** ** Notions used to state the properties *)
(* ===================================================================== *)

(** The buffers that the successive [fgets] calls of the scan hand out. *)
Equations? cpuinfo_lines (cpuinfo : FILE) : list string
  by wf (String.length cpuinfo) lt :=
  cpuinfo_lines cpuinfo with inspect (fgets 1024 cpuinfo) := {
    | exist _ None _ => []
    | exist _ (Some (line, cpuinfo')) Hread =>
        line :: cpuinfo_lines cpuinfo' }.
Proof.
  apply (fgets_consumes 1024 cpuinfo line cpuinfo'); [lia | assumption].
Qed.

(** The scan of [sw64CPUParseCpuMode] over buffers already read. *)
Fixpoint scan_lines (lines : list string) (mode : Z) : vir (Z * Z) :=
  match lines with
  | [] => pure (0, mode)
  | line :: rest =>
      '(rc, mode) <-
        sw64CPUParseCpuModeString line cpu_variation_prefix mode ;;
      if rc <? 0 then pure (-1, mode)
      else scan_lines rest mode
  end.

(** What [sw64CPUParseCpuModeString] answers for a buffer: its status
    (0 for a parsed value, 1 for a buffer that is not a variation line,
    -1 for a malformed one) and the value it stores on status 0. *)
Definition line_status (line : string) : Z :=
  fst (fst (sw64CPUParseCpuModeString line cpu_variation_prefix 0 None)).

Definition line_value (line : string) : Z :=
  snd (fst (sw64CPUParseCpuModeString line cpu_variation_prefix 0 None)).

(** The names registered in a map, in array order. *)
Definition map_names (map : sw64Map) : list string :=
  List.map sw64Model.name (sw64Map.models map).

(** A host-information file with the given text. *)
Definition host_with (text : string) : filesystem := fun _ => inr text.

(** A host on which no file can be opened. *)
Definition host_without (theerrno : Z) : filesystem := fun _ => inl theerrno.

Definition LF : string := String newline EmptyString.

(** A text made of white space only. *)
Fixpoint all_whitespace (s : string) : bool :=
  match s with
  | EmptyString => true
  | String c s' => g_ascii_isspace c && all_whitespace s'
  end.

(** A text without a newline. *)
Fixpoint no_newline (s : string) : bool :=
  match s with
  | EmptyString => true
  | String c s' => negb (Ascii.eqb c newline) && no_newline s'
  end.

(** The decimal numeral with the digits [ds], most significant first, and
    the number it denotes. *)
Definition digit_char (d : nat) : ascii := ascii_of_nat (48 + d).

Fixpoint decimal_string (ds : list nat) : string :=
  match ds with
  | [] => EmptyString
  | d :: rest => String (digit_char d) (decimal_string rest)
  end.

Definition decimal_value (ds : list nat) : Z :=
  fold_left (fun acc d => 10 * acc + Z.of_nat d) ds 0.

(** The bytes that may follow the number of a variation line. *)
Definition ends_number (c : ascii) : bool :=
  Ascii.eqb c "." || Ascii.eqb c NUL || g_ascii_isspace c.

(** The text of a file with the given lines, each closed by a newline. *)
Fixpoint text_of_lines (lines : list string) : string :=
  match lines with
  | [] => EmptyString
  | l :: rest => l ++ LF ++ text_of_lines rest
  end.

(** The C string that starts at the first byte of [s]: the bytes before
    the first NUL. *)
Fixpoint c_string (s : string) : string :=
  match s with
  | EmptyString => EmptyString
  | String c s' =>
      if Ascii.eqb c NUL then EmptyString else String c (c_string s')
  end.

(** The shape of a buffer: between 1 and 1023 bytes, with no newline
    except possibly as its last byte. *)
Definition buffer_shape (line : string) : Prop :=
  (1 <= String.length line <= 1023)%nat
  /\ exists body : string,
      no_newline body = true
      /\ (line = body \/ line = (body ++ LF)).

(** The lines of a text: each runs up to and including its newline; the
    last one may lack it. *)
Fixpoint source_lines (text : string) : list string :=
  match text with
  | EmptyString => []
  | String c text' =>
      if Ascii.eqb c newline then String c EmptyString :: source_lines text'
      else match source_lines text' with
           | [] => [String c EmptyString]
           | l :: ls => String c l :: ls
           end
  end.

(** [n] pairwise distinct model names: the name number [i] is [i] times
    the letter m. *)
Fixpoint unary_name (i : nat) : string :=
  match i with
  | O => EmptyString
  | S i' => String "m" (unary_name i')
  end.

Definition distinct_names (n : nat) : list string :=
  List.map unary_name (seq 0 n).

(** The bytes of the buffers, one after the other. *)
Definition join_buffers (buffers : list string) : string :=
  fold_right String.append EmptyString buffers.

(* ===================================================================== *)
(** ** Properties: compare and update *)
(* ===================================================================== *)

Local Open Scope list_scope.

Ltac vir_unfold :=
  unfold bind, pure, virReportError, virReportSystemError in *.

Lemma virCPUMode_eqb_eq (a b : virCPUMode) :
  virCPUMode_eqb a b = true <-> a = b.
Proof. destruct a, b; simpl; split; intro H; congruence. Qed.

Lemma virCPUMode_eqb_neq (a b : virCPUMode) :
  virCPUMode_eqb a b = false <-> a <> b.
Proof. destruct a, b; simpl; split; intro H; congruence. Qed.

(** C4: whatever host and guest definitions are passed, absent or
    degenerate ones included, compare answers IDENTICAL; it is a pure
    function with no error result. *)
Theorem compare_always_identical (host cpu : option virCPUDef)
    (failMessages : bool) :
  virCPUsw64Compare host cpu failMessages = VIR_CPU_COMPARE_IDENTICAL
  /\ virCPUsw64Compare host cpu failMessages <> VIR_CPU_COMPARE_ERROR.
Proof. unfold virCPUsw64Compare. split; [reflexivity | discriminate]. Qed.

(** C9: when [relative] is false or the guest's mode is not HOST_MODEL,
    update reports success, leaves every field of the guest as it was and
    reports nothing. *)
Theorem update_noop (guest : virCPUDef) (host : option virCPUDef)
    (relative : bool) (removedPolicy : virCPUFeaturePolicy)
    (e : virLastError) :
  relative = false \/ virCPUDef.mode guest <> VIR_CPU_MODE_HOST_MODEL ->
  virCPUsw64Update guest host relative removedPolicy e = ((0, guest), e).
Proof.
  intros [Hrel | Hmode]; unfold virCPUsw64Update.
  - rewrite Hrel. reflexivity.
  - apply virCPUMode_eqb_neq in Hmode. rewrite Hmode, orb_true_r.
    reflexivity.
Qed.

Lemma update_noop_witness :
  let guest :=
    virCPUDef.mk VIR_CPU_MODE_HOST_MODEL VIR_CPU_MATCH_MINIMUM
                 (Some "core3") ["f"] in
  let host :=
    virCPUDef.mk VIR_CPU_MODE_CUSTOM VIR_CPU_MATCH_STRICT
                 (Some "core4") [] in
  virCPUsw64Update guest (Some host) false VIR_CPU_FEATURE_REQUIRE None
  = ((0, guest), None).
Proof.
  intros guest host.
  apply (update_noop guest (Some host) false VIR_CPU_FEATURE_REQUIRE None).
  left. reflexivity.
Defined.

(** C1: for a guest in mode HOST_MODEL, [relative] true and a host
    definition, update succeeds without a report and leaves the guest in
    mode CUSTOM with match EXACT and the host's model, whatever model the
    guest held before. *)
Theorem update_host_model (guest host : virCPUDef)
    (removedPolicy : virCPUFeaturePolicy) (e : virLastError) :
  virCPUDef.mode guest = VIR_CPU_MODE_HOST_MODEL ->
  exists guest' : virCPUDef,
    virCPUsw64Update guest (Some host) true removedPolicy e
    = ((0, guest'), e)
    /\ virCPUDef.mode guest' = VIR_CPU_MODE_CUSTOM
    /\ virCPUDef.match_ guest' = VIR_CPU_MATCH_EXACT
    /\ virCPUDef.model guest' = virCPUDef.model host.
Proof.
  intro Hmode. unfold virCPUsw64Update. rewrite Hmode. simpl.
  eexists. split; [reflexivity|]. simpl. auto.
Qed.

Lemma update_host_model_witness :
  let guest :=
    virCPUDef.mk VIR_CPU_MODE_HOST_MODEL VIR_CPU_MATCH_MINIMUM
                 (Some "core3") ["f"] in
  let host :=
    virCPUDef.mk VIR_CPU_MODE_CUSTOM VIR_CPU_MATCH_STRICT
                 (Some "core4") [] in
  exists guest' : virCPUDef,
    virCPUsw64Update guest (Some host) true VIR_CPU_FEATURE_REQUIRE None
    = ((0, guest'), None)
    /\ virCPUDef.mode guest' = VIR_CPU_MODE_CUSTOM
    /\ virCPUDef.match_ guest' = VIR_CPU_MATCH_EXACT
    /\ virCPUDef.model guest' = Some "core4".
Proof.
  intros guest host.
  apply (update_host_model guest host VIR_CPU_FEATURE_REQUIRE None).
  reflexivity.
Defined.

(** C3: for a guest in mode HOST_MODEL and [relative] true, update without
    a host definition fails, reports the unknown-host-model error and
    returns the guest exactly as it was passed. *)
Theorem update_without_host (guest : virCPUDef)
    (removedPolicy : virCPUFeaturePolicy) (e : virLastError) :
  virCPUDef.mode guest = VIR_CPU_MODE_HOST_MODEL ->
  virCPUsw64Update guest None true removedPolicy e
  = ((-1, guest), Some UnknownHostModel).
Proof.
  intro Hmode. unfold virCPUsw64Update. rewrite Hmode. reflexivity.
Qed.

Lemma update_without_host_witness :
  let guest :=
    virCPUDef.mk VIR_CPU_MODE_HOST_MODEL VIR_CPU_MATCH_MINIMUM
                 (Some "core3") ["f"] in
  virCPUsw64Update guest None true VIR_CPU_FEATURE_REQUIRE None
  = ((-1, guest), Some UnknownHostModel).
Proof.
  intro guest.
  apply (update_without_host guest VIR_CPU_FEATURE_REQUIRE None).
  reflexivity.
Defined.

(* ===================================================================== *)
(** ** Properties: the model map *)
(* ===================================================================== *)

Section ModelMap.

Variable ctxt : xmlXPathContextPtr.

Lemma sw64ModelFind_from_None (models : list sw64Model) (name : string) :
  sw64ModelFind_from models name = None
  <-> ~ In name (List.map sw64Model.name models).
Proof.
  induction models as [|m rest IH]; simpl.
  - tauto.
  - unfold STREQ. destruct (String.eqb_spec (sw64Model.name m) name).
    + split; [discriminate | intro H; exfalso; apply H; now left].
    + rewrite IH. tauto.
Qed.

Lemma sw64ModelParse_fresh (name : string) (map : sw64Map)
    (e : virLastError) :
  ~ In name (map_names map) ->
  sw64ModelParse ctxt name map e
  = ((0, VIR_APPEND_ELEMENT map (sw64Model.mk name)), e).
Proof.
  intro Hfresh. apply sw64ModelFind_from_None in Hfresh.
  unfold sw64ModelParse, sw64ModelFind, g_strdup. simpl.
  rewrite Hfresh. reflexivity.
Qed.

Lemma sw64ModelParse_dup (name : string) (map : sw64Map)
    (e : virLastError) :
  In name (map_names map) ->
  sw64ModelParse ctxt name map e = ((-1, map), Some (DuplicateModel name)).
Proof.
  intro Hin. unfold sw64ModelParse, sw64ModelFind, g_strdup. simpl.
  destruct (sw64ModelFind_from (sw64Map.models map) name) eqn:Hfind.
  - reflexivity.
  - apply sw64ModelFind_from_None in Hfind. contradiction.
Qed.

Lemma map_names_append (map : sw64Map) (name : string) :
  map_names (VIR_APPEND_ELEMENT map (sw64Model.mk name))
  = map_names map ++ [name].
Proof. unfold map_names, VIR_APPEND_ELEMENT. simpl. apply map_app. Qed.

End ModelMap.

Lemma cpuMapLoadModels_distinct (names : list string) :
  forall (map : sw64Map) (e : virLastError),
    NoDup (map_names map ++ names) ->
    cpuMapLoadModels names sw64ModelParse map e
    = ((0, sw64Map.mk (sw64Map.models map ++ List.map sw64Model.mk names)),
       e).
Proof.
  induction names as [|name rest IH]; intros map e Hnodup.
  - simpl. unfold pure. rewrite app_nil_r. destruct map. reflexivity.
  - cbn [cpuMapLoadModels]. unfold bind.
    rewrite sw64ModelParse_fresh.
    + cbn. rewrite IH.
      * cbn. rewrite <- app_assoc. reflexivity.
      * rewrite map_names_append, <- app_assoc. exact Hnodup.
    + apply NoDup_remove_2 in Hnodup. intro Hin. apply Hnodup.
      apply in_or_app. now left.
Qed.

Lemma cpuMapLoadModels_duplicate (pre : list string) :
  forall (dup : string) (post : list string) (map : sw64Map)
         (e : virLastError),
    NoDup (map_names map ++ pre) ->
    In dup (map_names map ++ pre) ->
    exists map' : sw64Map,
      cpuMapLoadModels (pre ++ dup :: post) sw64ModelParse map e
      = ((-1, map'), Some (DuplicateModel dup)).
Proof.
  induction pre as [|name rest IH]; intros dup post map e Hnodup Hin.
  - rewrite app_nil_r in Hin. exists map.
    cbn [app cpuMapLoadModels]. unfold bind.
    rewrite sw64ModelParse_dup by exact Hin. reflexivity.
  - cbn [app cpuMapLoadModels]. unfold bind.
    rewrite sw64ModelParse_fresh.
    + cbn. apply IH.
      * rewrite map_names_append, <- app_assoc. exact Hnodup.
      * rewrite map_names_append, <- app_assoc. exact Hin.
    + apply NoDup_remove_2 in Hnodup. intro Hin'. apply Hnodup.
      apply in_or_app. now left.
Qed.

(** A sequence with a repeated name splits at the first name that repeats
    an earlier one. *)
Lemma first_duplicate (names : list string) :
  forall acc : list string,
    NoDup acc ->
    ~ NoDup (acc ++ names) ->
    exists (pre : list string) (dup : string) (post : list string),
      names = pre ++ dup :: post
      /\ NoDup (acc ++ pre)
      /\ In dup (acc ++ pre).
Proof.
  induction names as [|name rest IH]; intros acc Hacc Hdup.
  - rewrite app_nil_r in Hdup. contradiction.
  - destruct (in_dec string_dec name acc) as [Hin | Hnotin].
    + exists [], name, rest. rewrite app_nil_r. auto.
    + destruct (IH (acc ++ [name])) as (pre & dup & post & Heq & Hnd & Hd).
      * apply NoDup_app; auto.
        -- repeat constructor. simpl. tauto.
        -- intros x Hx [Hy | []]. subst. contradiction.
      * rewrite <- app_assoc. exact Hdup.
      * exists (name :: pre), dup, post. subst rest.
        rewrite <- app_assoc in Hnd, Hd. auto.
Qed.

(** C7: when the declared sequence repeats a name, the build stops at the
    first name [dup] equal (as a string, so case-sensitively) to an
    earlier one, with the duplicate-model report naming [dup]; no map is
    returned, and listing answers -1 with the caller's slot set to NULL,
    so no name of the partly built map is handed out. *)
Theorem duplicate_model_aborts_build (names : list string)
    (models : option (option (list string))) (e : virLastError) :
  ~ NoDup names ->
  exists (pre : list string) (dup : string) (post : list string),
    names = pre ++ dup :: post
    /\ NoDup pre
    /\ In dup pre
    /\ sw64LoadMap (cpuMapModels names) e
       = (None, Some (DuplicateModel dup))
    /\ virCPUsw64DriverGetModels (cpuMapModels names) models e
       = ((-1, match models with
               | Some _ => Some None
               | None => None
               end),
          Some (DuplicateModel dup)).
Proof.
  intro Hdup.
  destruct (first_duplicate names [] (NoDup_nil _) Hdup)
    as (pre & dup & post & Heq & Hnd & Hin).
  simpl in Hnd, Hin. exists pre, dup, post.
  repeat split; try assumption.
  - unfold sw64LoadMap, cpuMapLoad, bind. subst names.
    destruct (cpuMapLoadModels_duplicate pre dup post sw64Map_new0 e
                Hnd Hin) as [map' Hload].
    rewrite Hload. reflexivity.
  - unfold virCPUsw64DriverGetModels, sw64LoadMap, cpuMapLoad, bind.
    subst names.
    destruct (cpuMapLoadModels_duplicate pre dup post sw64Map_new0 e
                Hnd Hin) as [map' Hload].
    rewrite Hload. reflexivity.
Qed.

Lemma duplicate_model_aborts_build_witness :
  exists (pre : list string) (dup : string) (post : list string),
    ["core3"; "core4"; "core3"; "core5"] = pre ++ dup :: post
    /\ NoDup pre
    /\ In dup pre
    /\ sw64LoadMap (cpuMapModels ["core3"; "core4"; "core3"; "core5"]) None
       = (None, Some (DuplicateModel dup))
    /\ virCPUsw64DriverGetModels
         (cpuMapModels ["core3"; "core4"; "core3"; "core5"])
         (Some (Some ["stale"])) None
       = ((-1, Some None), Some (DuplicateModel dup)).
Proof.
  apply (duplicate_model_aborts_build
           ["core3"; "core4"; "core3"; "core5"] (Some (Some ["stale"])) None).
  intro H. inversion H as [|x l Hnotin Hrest]. apply Hnotin.
  simpl. right. left. reflexivity.
Defined.

Lemma int_of_size_t_small (n : nat) :
  Z.of_nat n <= INT_MAX -> int_of_size_t n = Z.of_nat n.
Proof.
  intro Hfit. unfold int_of_size_t. unfold INT_MAX in *.
  rewrite Z.mod_small by lia.
  destruct (Z.of_nat n <=? 2147483647) eqn:Hle; [reflexivity|].
  apply Z.leb_gt in Hle. lia.
Qed.

(** The listing of pairwise distinct declared names, with the count as the
    [int] status carries it. *)
Lemma listing_of_distinct_names (names : list string)
    (models : option (option (list string))) (e : virLastError) :
  NoDup names ->
  virCPUsw64DriverGetModels (cpuMapModels names) models e
  = ((int_of_size_t (List.length names),
      match models with
      | Some _ => Some (Some names)
      | None => None
      end),
     e).
Proof.
  intro Hnodup.
  unfold virCPUsw64DriverGetModels, sw64LoadMap, cpuMapLoad, bind.
  rewrite cpuMapLoadModels_distinct by exact Hnodup.
  cbn [Z.ltb Z.compare]. unfold pure, sw64Map.nmodels, g_strdup.
  cbn [sw64Map.models sw64Map_new0 app].
  rewrite length_map, map_map. cbn [sw64Model.name]. rewrite map_id.
  reflexivity.
Qed.

Lemma listing_status_of_distinct_names (names : list string)
    (models : option (option (list string))) (e : virLastError) :
  NoDup names ->
  fst (fst (virCPUsw64DriverGetModels (cpuMapModels names) models e))
  = int_of_size_t (List.length names).
Proof.
  intro Hnodup. rewrite (listing_of_distinct_names names models e Hnodup).
  reflexivity.
Qed.

Lemma unary_name_length (i : nat) : String.length (unary_name i) = i.
Proof. induction i as [|i IH]; simpl; [reflexivity | now rewrite IH]. Qed.

Lemma distinct_names_NoDup (n : nat) : NoDup (distinct_names n).
Proof.
  unfold distinct_names. generalize (seq_NoDup n 0).
  generalize (seq 0 n) as l.
  induction l as [|i l IH]; intro Hl; [constructor|].
  inversion Hl as [|x xs Hnotin Hrest]; subst.
  cbn [List.map]. constructor; [|apply IH; exact Hrest].
  intro Hin. apply in_map_iff in Hin. destruct Hin as (j & Heq & Hj).
  apply (f_equal String.length) in Heq.
  rewrite !unary_name_length in Heq. subst j. contradiction.
Qed.

Lemma distinct_names_length (n : nat) : List.length (distinct_names n) = n.
Proof. unfold distinct_names. rewrite length_map. apply length_seq. Qed.

(** C8 as stated fails from 2^31 names on: for the 2^31 pairwise distinct
    names of [distinct_names], the listing returns the status -2^31, not
    the number of names. *)
Lemma distinct_models_listed_counterexample :
  let names := distinct_names (Z.to_nat 2147483648) in
  NoDup names
  /\ Z.of_nat (List.length names) = 2147483648
  /\ fst (fst (virCPUsw64DriverGetModels (cpuMapModels names) None None))
     = -2147483648.
Proof.
  intro names. subst names.
  split; [apply distinct_names_NoDup|].
  split.
  - rewrite distinct_names_length. apply Z2Nat.id. discriminate.
  - etransitivity.
    + apply listing_status_of_distinct_names. apply distinct_names_NoDup.
    + rewrite distinct_names_length.
      unfold int_of_size_t. rewrite Z2Nat.id by discriminate.
      reflexivity.
Qed.

(** C8 (amended): for a declared sequence without repeated names whose
    length fits an [int], listing returns the number of declared names
    and, when the caller asks for the list, exactly the declared names in
    declaration order; nothing is reported. *)
Theorem distinct_models_listed (names : list string)
    (models : option (option (list string))) (e : virLastError) :
  NoDup names ->
  Z.of_nat (List.length names) <= INT_MAX ->
  virCPUsw64DriverGetModels (cpuMapModels names) models e
  = ((Z.of_nat (List.length names),
      match models with
      | Some _ => Some (Some names)
      | None => None
      end),
     e).
Proof.
  intros Hnodup Hfit.
  rewrite (listing_of_distinct_names names models e Hnodup).
  rewrite (int_of_size_t_small _ Hfit). reflexivity.
Qed.

Lemma distinct_models_listed_witness :
  virCPUsw64DriverGetModels (cpuMapModels ["core3"; "Core3"; "core4"])
    (Some None) None
  = ((3, Some (Some ["core3"; "Core3"; "core4"])), None).
Proof.
  apply (distinct_models_listed ["core3"; "Core3"; "core4"] (Some None) None).
  - repeat constructor; simpl; intuition discriminate.
  - vm_compute. discriminate.
Defined.

(* ===================================================================== *)
(** ** Properties: host detection *)
(* ===================================================================== *)

Ltac rewrite_fgets :=
  match goal with H : fgets _ _ = _ |- _ => rewrite H end.

Lemma STRPREFIX_app (prefix rest : string) :
  STRPREFIX (prefix ++ rest)%string prefix = true.
Proof.
  unfold STRPREFIX. induction prefix as [|c p IH]; simpl.
  - destruct rest; reflexivity.
  - destruct (ascii_dec c c); [exact IH | congruence].
Qed.

Lemma advance_app (prefix rest : string) :
  advance (strlen prefix) (prefix ++ rest)%string = rest.
Proof. induction prefix as [|c p IH]; simpl; [reflexivity | exact IH]. Qed.

(** The loop of [sw64CPUParseCpuMode], one iteration unfolded. *)
Lemma sw64CPUParseCpuMode_step (cpuinfo : FILE) (mode : Z)
    (e : virLastError) :
  sw64CPUParseCpuMode cpuinfo mode e
  = match fgets 1024 cpuinfo with
    | None => ((0, mode), e)
    | Some (line, cpuinfo') =>
        let '((rc, mode'), e') :=
          sw64CPUParseCpuModeString line cpu_variation_prefix mode e in
        if rc <? 0 then ((-1, mode'), e')
        else sw64CPUParseCpuMode cpuinfo' mode' e'
    end.
Proof.
  funelim (sw64CPUParseCpuMode cpuinfo mode e); rewrite_fgets;
    [reflexivity|].
  match goal with
  | H : sw64CPUParseCpuModeString _ _ _ _ = _ |- _ => rewrite H
  end.
  reflexivity.
Qed.

Lemma cpuinfo_lines_step (cpuinfo : FILE) :
  cpuinfo_lines cpuinfo
  = match fgets 1024 cpuinfo with
    | None => []
    | Some (line, cpuinfo') => line :: cpuinfo_lines cpuinfo'
    end.
Proof.
  funelim (cpuinfo_lines cpuinfo); rewrite_fgets; reflexivity.
Qed.

(** The scan of the stream is the scan of the buffers read from it. *)
Lemma sw64CPUParseCpuMode_scan_lines (cpuinfo : FILE) :
  forall (mode : Z) (e : virLastError),
    sw64CPUParseCpuMode cpuinfo mode e
    = scan_lines (cpuinfo_lines cpuinfo) mode e.
Proof.
  funelim (cpuinfo_lines cpuinfo); intros mode err;
    rewrite sw64CPUParseCpuMode_step; rewrite_fgets; [|reflexivity].
  cbn [scan_lines]. unfold bind, pure.
  destruct (sw64CPUParseCpuModeString line cpu_variation_prefix mode err)
    as [[rc mode'] err'].
  destruct (rc <? 0); [reflexivity|].
  match goal with IH : forall _ _, _ = _ |- _ => apply IH end.
Qed.

(** A number either parses, whatever [*result] held, or fails and leaves
    [*result] alone. *)
Lemma virStrToLong_ui_cases (s : string) :
  (exists (p : string) (ui : Z),
      forall result : Z, virStrToLong_ui s result = (0, p, ui))
  \/ (exists p : string,
         forall result : Z, virStrToLong_ui s result = (-1, p, result)).
Proof.
  unfold virStrToLong_ui. destruct (read_digits s 0) as [val p].
  destruct (is_digit (deref s) && (val <=? UINT_MAX)).
  - left. exists p, val. reflexivity.
  - right. exists p. reflexivity.
Qed.

(** The answer for a buffer depends on the incoming [mode] and last error
    only in what it passes through. *)
Lemma sw64CPUParseCpuModeString_cases (line : string) (mode : Z)
    (e : virLastError) :
  (line_status line = 0
   /\ sw64CPUParseCpuModeString line cpu_variation_prefix mode e
      = ((0, line_value line), e))
  \/ (line_status line = 1
      /\ sw64CPUParseCpuModeString line cpu_variation_prefix mode e
         = ((1, mode), e))
  \/ (line_status line = -1
      /\ sw64CPUParseCpuModeString line cpu_variation_prefix mode e
         = ((-1, mode), Some MalformedHostInfo)).
Proof.
  unfold line_status, line_value, sw64CPUParseCpuModeString,
    MalformedHostInfo.
  vir_unfold.
  destruct (negb (STRPREFIX line cpu_variation_prefix)); [cbn; auto|].
  set (str1 := skip_whitespace (advance _ line)).
  destruct (Ascii.eqb (deref str1) NUL); [cbn; auto|].
  destruct (negb (Ascii.eqb (deref str1) ":")); [cbn; auto|].
  set (str2 := skip_whitespace (incr str1)).
  destruct (Ascii.eqb (deref str2) NUL); [cbn; auto|].
  destruct (virStrToLong_ui_cases str2) as [(p & ui & Hnum) | (p & Hnum)];
    rewrite (Hnum 0).
  - destruct ((0 <? 0)
              || negb (Ascii.eqb (deref p) ".")
                 && negb (Ascii.eqb (deref p) NUL)
                 && negb (g_ascii_isspace (deref p))); cbn; auto.
  - cbn. auto.
Qed.

Lemma scan_lines_nonmatching (lines : list string) (mode : Z)
    (e : virLastError) :
  Forall (fun l => line_status l = 1) lines ->
  scan_lines lines mode e = ((0, mode), e).
Proof.
  induction 1 as [|line rest Hline _ IH]; [reflexivity|].
  cbn [scan_lines]. unfold bind.
  destruct (sw64CPUParseCpuModeString_cases line mode e)
    as [[Hs Hr] | [[Hs Hr] | [Hs Hr]]]; try congruence.
  rewrite Hr. cbn. exact IH.
Qed.

Lemma scan_lines_skip (before rest : list string) :
  forall (mode : Z) (e : virLastError),
    Forall (fun l => line_status l <> -1) before ->
    exists mode' : Z,
      scan_lines (before ++ rest) mode e = scan_lines rest mode' e.
Proof.
  induction before as [|line before IH]; intros mode e Hok.
  - exists mode. reflexivity.
  - inversion Hok as [|l ls Hline Hbefore]; subst.
    cbn [app scan_lines]. unfold bind.
    destruct (sw64CPUParseCpuModeString_cases line mode e)
      as [[Hs Hr] | [[Hs Hr] | [Hs Hr]]]; try congruence;
      rewrite Hr; cbn; apply IH; assumption.
Qed.

Lemma scan_lines_last_wins (before after : list string) (last : string)
    (mode : Z) (e : virLastError) :
  Forall (fun l => line_status l <> -1) before ->
  line_status last = 0 ->
  Forall (fun l => line_status l = 1) after ->
  scan_lines (before ++ last :: after) mode e = ((0, line_value last), e).
Proof.
  intros Hbefore Hlast Hafter.
  destruct (scan_lines_skip before (last :: after) mode e Hbefore)
    as [mode' Hskip].
  rewrite Hskip. cbn [scan_lines]. unfold bind.
  destruct (sw64CPUParseCpuModeString_cases last mode' e)
    as [[Hs Hr] | [[Hs Hr] | [Hs Hr]]]; try congruence.
  rewrite Hr. cbn. apply scan_lines_nonmatching. exact Hafter.
Qed.

Lemma scan_lines_malformed (before after : list string) (bad : string)
    (mode : Z) (e : virLastError) :
  Forall (fun l => line_status l <> -1) before ->
  line_status bad = -1 ->
  exists mode' : Z,
    scan_lines (before ++ bad :: after) mode e
    = ((-1, mode'), Some MalformedHostInfo).
Proof.
  intros Hbefore Hbad.
  destruct (scan_lines_skip before (bad :: after) mode e Hbefore)
    as [mode' Hskip].
  exists mode'. rewrite Hskip. cbn [scan_lines]. unfold bind.
  destruct (sw64CPUParseCpuModeString_cases bad mode' e)
    as [[Hs Hr] | [[Hs Hr] | [Hs Hr]]]; try congruence.
  rewrite Hr. reflexivity.
Qed.

Lemma is_digit_not_NUL (s : string) :
  is_digit (deref s) = true -> Ascii.eqb (deref s) NUL = false.
Proof.
  destruct (Ascii.eqb_spec (deref s) NUL) as [Heq | Hneq];
    [|reflexivity].
  rewrite Heq. discriminate.
Qed.

Lemma ascii_eqb_false (a b : ascii) : a <> b -> Ascii.eqb a b = false.
Proof. intro H. destruct (Ascii.eqb_spec a b); congruence. Qed.


Lemma source_lines_nil (text : string) :
  source_lines text = [] -> text = EmptyString.
Proof.
  destruct text as [|c text]; [reflexivity|]. cbn [source_lines].
  destruct (Ascii.eqb c newline); [discriminate|].
  destruct (source_lines text); discriminate.
Qed.

Lemma fgets_read_nothing (room : nat) :
  fgets_read room EmptyString = (EmptyString, EmptyString).
Proof. destruct room; reflexivity. Qed.

(** A read with room for the first line of the text hands out that line
    and leaves the other lines. *)
Lemma fgets_read_source_line (text : string) :
  forall (room : nat) (l : string) (ls : list string),
    source_lines text = l :: ls ->
    (String.length l <= room)%nat ->
    exists rest : FILE,
      fgets_read room text = (l, rest) /\ source_lines rest = ls.
Proof.
  induction text as [|c text IH]; intros room l ls Hlines Hroom;
    [discriminate|].
  cbn [source_lines] in Hlines.
  destruct (Ascii.eqb c newline) eqn:Hc.
  - injection Hlines as <- <-.
    destruct room as [|room]; [simpl in Hroom; lia|].
    exists text. cbn [fgets_read]. rewrite Hc. auto.
  - destruct (source_lines text) as [|l' ls'] eqn:Htext.
    + injection Hlines as <- <-.
      destruct room as [|room]; [simpl in Hroom; lia|].
      apply source_lines_nil in Htext. subst text.
      exists EmptyString. cbn [fgets_read]. rewrite Hc.
      rewrite fgets_read_nothing. auto.
    + injection Hlines as <- <-.
      destruct room as [|room]; [simpl in Hroom; lia|].
      simpl in Hroom.
      destruct (IH room l' ls' eq_refl ltac:(lia)) as (rest & Hread & Hrest).
      exists rest. cbn [fgets_read]. rewrite Hc, Hread. auto.
Qed.

(** A source whose lines have at most 1023 bytes, newline included, is
    read line by line. *)
Lemma cpuinfo_lines_source_lines (lines : list string) :
  forall cpuinfo : FILE,
    source_lines cpuinfo = lines ->
    Forall (fun l => (String.length l <= 1023)%nat) lines ->
    cpuinfo_lines cpuinfo = lines.
Proof.
  induction lines as [|l ls IH]; intros cpuinfo Hlines Hshort;
    rewrite cpuinfo_lines_step.
  - apply source_lines_nil in Hlines. subst cpuinfo. reflexivity.
  - inversion Hshort as [|x xs Hl Hls]; subst.
    destruct (fgets_read_source_line cpuinfo (1024 - 1) l ls Hlines
                ltac:(lia))
      as (rest & Hread & Hrest).
    assert (Hfgets : fgets 1024 cpuinfo = Some (l, rest)).
    { unfold fgets. rewrite Hread.
      destruct cpuinfo; [discriminate | reflexivity]. }
    rewrite Hfgets, (IH rest Hrest Hls). reflexivity.
Qed.

(** C6 as stated fails on a source with a line of more than 1023 bytes:
    in the text below the last line that is a variation line says 3 (the
    third line begins with the letter x, not with the label), and the
    scan returns 4, read from the tail of the third line. *)
Lemma last_variation_line_wins_counterexample :
  let l1 := ("cpu variation : 5" ++ LF)%string in
  let l2 := ("cpu variation : 3" ++ LF)%string in
  let l3 :=
    (string_of_list_ascii (repeat "x"%char 1023)
     ++ "cpu variation : 4" ++ LF)%string in
  source_lines (l1 ++ l2 ++ l3)%string = [l1; l2; l3]
  /\ line_status l1 = 0
  /\ line_status l2 = 0
  /\ line_value l2 = 3
  /\ line_status l3 = 1
  /\ sw64CPUParseCpuMode (l1 ++ l2 ++ l3)%string 0 None = ((0, 4), None).
Proof.
  intros l1 l2 l3. repeat split; vm_compute; reflexivity.
Qed.

(** C6 (amended): on a source whose lines have at most 1023 bytes, newline
    included, the scan goes through every line; when none is malformed,
    the value of the last line that parses is the detected code, whatever
    was parsed from the lines before it and whatever [*mode] held at the
    start. *)
Theorem last_variation_line_wins (cpuinfo : FILE)
    (before after : list string) (last : string) (mode : Z)
    (e : virLastError) :
  Forall (fun l => (String.length l <= 1023)%nat) (source_lines cpuinfo) ->
  source_lines cpuinfo = before ++ last :: after ->
  Forall (fun l => line_status l <> -1) before ->
  line_status last = 0 ->
  Forall (fun l => line_status l = 1) after ->
  sw64CPUParseCpuMode cpuinfo mode e = ((0, line_value last), e).
Proof.
  intros Hshort Hlines Hbefore Hlast Hafter.
  rewrite sw64CPUParseCpuMode_scan_lines.
  rewrite (cpuinfo_lines_source_lines (source_lines cpuinfo) cpuinfo
             eq_refl Hshort).
  rewrite Hlines.
  apply scan_lines_last_wins; assumption.
Qed.

Lemma last_variation_line_wins_witness :
  sw64CPUParseCpuMode
    ("cpu variation : 3" ++ LF ++ "cpu revision : 0" ++ LF
     ++ "cpu variation : 4" ++ LF ++ "cpu model : sw" ++ LF)%string
    77 None
  = ((0, 4), None).
Proof.
  assert (Hlines :
            source_lines
              ("cpu variation : 3" ++ LF ++ "cpu revision : 0" ++ LF
               ++ "cpu variation : 4" ++ LF ++ "cpu model : sw" ++ LF)%string
            = [("cpu variation : 3" ++ LF)%string;
               ("cpu revision : 0" ++ LF)%string]
              ++ ("cpu variation : 4" ++ LF)%string
                 :: [("cpu model : sw" ++ LF)%string])
    by (vm_compute; reflexivity).
  apply (last_variation_line_wins
           ("cpu variation : 3" ++ LF ++ "cpu revision : 0" ++ LF
            ++ "cpu variation : 4" ++ LF ++ "cpu model : sw" ++ LF)%string
           [("cpu variation : 3" ++ LF)%string;
            ("cpu revision : 0" ++ LF)%string]
           [("cpu model : sw" ++ LF)%string]
           ("cpu variation : 4" ++ LF)%string 77 None).
  - rewrite Hlines. repeat constructor; vm_compute; intro H; discriminate.
  - exact Hlines.
  - repeat constructor; vm_compute; discriminate.
  - vm_compute. reflexivity.
  - repeat constructor.
Defined.

Lemma variation_line_start (rest : string) (mode : Z) (e : virLastError) :
  sw64CPUParseCpuModeString (cpu_variation_prefix ++ rest)%string
    cpu_variation_prefix mode e
  = let error := ((-1, mode), Some MalformedHostInfo) in
    let str := skip_whitespace rest in
    if Ascii.eqb (deref str) NUL then error
    else if negb (Ascii.eqb (deref str) ":") then ((1, mode), e)
    else
      let str := skip_whitespace (incr str) in
      if Ascii.eqb (deref str) NUL then error
      else
        let '(rc, p, ui) := virStrToLong_ui str 0 in
        if (rc <? 0)
           || (negb (Ascii.eqb (deref p) ".")
               && negb (Ascii.eqb (deref p) NUL)
               && negb (g_ascii_isspace (deref p)))
        then error
        else ((0, ui), e).
Proof.
  unfold sw64CPUParseCpuModeString.
  rewrite STRPREFIX_app, advance_app. cbn [negb].
  vir_unfold. cbv zeta.
  repeat match goal with
         | |- context [if ?c then _ else _] => destruct c
         | |- context [let '(_, _) := ?x in _] => destruct x
         end; reflexivity.
Qed.



(** What detection stores for a variation code: the model name for the
    codes 3 and 4, and otherwise the model the definition had. *)
Lemma get_host_after_scan (fs : filesystem) (cpuinfo : FILE)
    (uninit code : Z) (cpu : virCPUDef)
    (models : option virDomainCapsCPUModels) (e e' : virLastError) :
  fs CPUINFO_PATH = inr cpuinfo ->
  sw64CPUParseCpuMode cpuinfo uninit e = ((0, code), e') ->
  exists cpu' : virCPUDef,
    virCPUsw64GetHost fs uninit cpu models e = ((0, cpu'), e')
    /\ virCPUDef.mode cpu' = virCPUDef.mode cpu
    /\ virCPUDef.match_ cpu' = virCPUDef.match_ cpu
    /\ virCPUDef.features cpu' = virCPUDef.features cpu
    /\ virCPUDef.model cpu'
       = (if code =? 3 then Some "core3"%string
          else if code =? 4 then Some "core4"%string
          else virCPUDef.model cpu)
    /\ (code <> 3 -> code <> 4 -> cpu' = cpu).
Proof.
  intros Hfile Hscan.
  unfold virCPUsw64GetHost, fopen, bind. rewrite Hfile, Hscan.
  cbn [Z.ltb Z.compare]. unfold pure, g_strdup.
  destruct (code =? 3) eqn:H3; [|destruct (code =? 4) eqn:H4].
  - eexists. split; [reflexivity|]. cbn.
    apply Z.eqb_eq in H3. repeat split; congruence.
  - eexists. split; [reflexivity|]. cbn.
    apply Z.eqb_eq in H4. repeat split; congruence.
  - eexists. split; [reflexivity|]. repeat split; reflexivity.
Qed.

(** C2: when the scan of the host-information source succeeds with the
    variation code [code], detection succeeds and returns a definition
    whose mode, match and features are those passed in and whose model is
    core3 for code 3 and core4 for code 4; for any other code the
    definition is returned as it was passed, so that a model that was
    unset stays unset. *)
Theorem host_model_from_variation (fs : filesystem) (cpuinfo : FILE)
    (uninit code : Z) (cpu : virCPUDef)
    (models : option virDomainCapsCPUModels) (e e' : virLastError) :
  fs CPUINFO_PATH = inr cpuinfo ->
  sw64CPUParseCpuMode cpuinfo uninit e = ((0, code), e') ->
  exists cpu' : virCPUDef,
    virCPUsw64GetHost fs uninit cpu models e = ((0, cpu'), e')
    /\ virCPUDef.mode cpu' = virCPUDef.mode cpu
    /\ virCPUDef.match_ cpu' = virCPUDef.match_ cpu
    /\ virCPUDef.features cpu' = virCPUDef.features cpu
    /\ (code = 3 -> virCPUDef.model cpu' = Some "core3"%string)
    /\ (code = 4 -> virCPUDef.model cpu' = Some "core4"%string)
    /\ (code <> 3 -> code <> 4 ->
        cpu' = cpu
        /\ (virCPUDef.model cpu = None -> virCPUDef.model cpu' = None)).
Proof.
  intros Hfile Hscan.
  destruct (get_host_after_scan fs cpuinfo uninit code cpu models e e'
              Hfile Hscan)
    as (cpu' & Hcall & Hmode & Hmatch & Hfeatures & Hmodel & Hother).
  exists cpu'. repeat (split; [assumption|]).
  split; [intros ->; exact Hmodel|].
  split; [intros ->; exact Hmodel|].
  intros Hnot3 Hnot4. rewrite (Hother Hnot3 Hnot4). auto.
Qed.

Lemma host_model_from_variation_witness :
  let cpu := virCPUDef.mk VIR_CPU_MODE_CUSTOM VIR_CPU_MATCH_EXACT None [] in
  (exists cpu' : virCPUDef,
      virCPUsw64GetHost (host_with ("cpu variation : 3" ++ LF)%string) 0 cpu
        None None
      = ((0, cpu'), None)
      /\ virCPUDef.model cpu' = Some "core3"%string)
  /\ (exists cpu' : virCPUDef,
         virCPUsw64GetHost (host_with ("cpu variation : 4" ++ LF)%string) 0
           cpu None None
         = ((0, cpu'), None)
         /\ virCPUDef.model cpu' = Some "core4"%string)
  /\ (exists cpu' : virCPUDef,
         virCPUsw64GetHost (host_with ("cpu variation : 7" ++ LF)%string) 0
           cpu None None
         = ((0, cpu'), None)
         /\ cpu' = cpu
         /\ virCPUDef.model cpu' = None).
Proof.
  intro cpu.
  destruct (host_model_from_variation
              (host_with ("cpu variation : 3" ++ LF)%string)
              ("cpu variation : 3" ++ LF)%string 0 3 cpu None None None
              eq_refl eq_refl)
    as (cpu3 & Hcall3 & _ & _ & _ & Hcore3 & _ & _).
  destruct (host_model_from_variation
              (host_with ("cpu variation : 4" ++ LF)%string)
              ("cpu variation : 4" ++ LF)%string 0 4 cpu None None None
              eq_refl eq_refl)
    as (cpu4 & Hcall4 & _ & _ & _ & _ & Hcore4 & _).
  destruct (host_model_from_variation
              (host_with ("cpu variation : 7" ++ LF)%string)
              ("cpu variation : 7" ++ LF)%string 0 7 cpu None None None
              eq_refl eq_refl)
    as (cpu7 & Hcall7 & _ & _ & _ & _ & _ & Hother).
  destruct Hother as [Hsame Hunset]; [discriminate | discriminate |].
  split; [|split].
  - exists cpu3. split; [exact Hcall3 | apply Hcore3; reflexivity].
  - exists cpu4. split; [exact Hcall4 | apply Hcore4; reflexivity].
  - exists cpu7. split; [exact Hcall7|].
    split; [exact Hsame | apply Hunset; reflexivity].
Defined.

(** C10: a failed detection returns the host definition exactly as it was
    passed.  This holds when the source cannot be opened, when a buffer of
    the source is malformed (the buffers before it may have parsed), and
    for any negative status of the operation. *)
Theorem get_host_failure_keeps_definition (fs : filesystem) (uninit : Z)
    (cpu : virCPUDef) (models : option virDomainCapsCPUModels)
    (e : virLastError) :
  (forall theerrno : Z,
      fs CPUINFO_PATH = inl theerrno ->
      virCPUsw64GetHost fs uninit cpu models e
      = ((-1, cpu), Some (SourceUnavailable theerrno)))
  /\ (forall (cpuinfo : FILE) (before after : list string) (bad : string),
         fs CPUINFO_PATH = inr cpuinfo ->
         cpuinfo_lines cpuinfo = before ++ bad :: after ->
         Forall (fun l => line_status l <> -1) before ->
         line_status bad = -1 ->
         virCPUsw64GetHost fs uninit cpu models e
         = ((-1, cpu), Some MalformedHostInfo))
  /\ (forall (ret : Z) (cpu' : virCPUDef) (e' : virLastError),
         virCPUsw64GetHost fs uninit cpu models e = ((ret, cpu'), e') ->
         ret < 0 ->
         cpu' = cpu).
Proof.
  repeat apply conj.
  - intros theerrno Hfile.
    unfold virCPUsw64GetHost, fopen. rewrite Hfile. reflexivity.
  - intros cpuinfo before after bad Hfile Hlines Hbefore Hbad.
    unfold virCPUsw64GetHost, fopen, bind. rewrite Hfile.
    rewrite sw64CPUParseCpuMode_scan_lines, Hlines.
    destruct (scan_lines_malformed before after bad uninit e Hbefore Hbad)
      as [mode' Hscan].
    rewrite Hscan. reflexivity.
  - intros ret cpu' e' Hcall Hneg.
    unfold virCPUsw64GetHost, fopen, bind in Hcall.
    destruct (fs CPUINFO_PATH) as [theerrno | cpuinfo].
    + vir_unfold. congruence.
    + destruct (sw64CPUParseCpuMode cpuinfo uninit e) as [[rc mode] e1].
      destruct (rc <? 0) eqn:Hrc.
      * unfold pure in Hcall. congruence.
      * assert (ret = rc).
        { destruct (mode =? 3); [|destruct (mode =? 4)];
            unfold pure in Hcall; congruence. }
        apply Z.ltb_ge in Hrc. lia.
Qed.

Lemma get_host_failure_keeps_definition_witness :
  let cpu :=
    virCPUDef.mk VIR_CPU_MODE_CUSTOM VIR_CPU_MATCH_EXACT (Some "old") [] in
  virCPUsw64GetHost (host_without 2) 0 cpu None None
  = ((-1, cpu), Some (SourceUnavailable 2))
  /\ virCPUsw64GetHost
       (host_with ("cpu variation : 3" ++ LF ++ "cpu variation : 4x" ++ LF
                   ++ "cpu variation : 4" ++ LF)%string)
       0 cpu None None
     = ((-1, cpu), Some MalformedHostInfo)
  /\ snd (fst (virCPUsw64GetHost (host_with ("cpu variation" ++ LF)%string)
                  0 cpu None None))
     = cpu.
Proof.
  intro cpu. repeat apply conj.
  - apply (get_host_failure_keeps_definition (host_without 2) 0 cpu None
             None).
    reflexivity.
  - apply (proj1 (proj2 (get_host_failure_keeps_definition
             (host_with ("cpu variation : 3" ++ LF ++ "cpu variation : 4x"
                         ++ LF ++ "cpu variation : 4" ++ LF)%string)
             0 cpu None None))
             ("cpu variation : 3" ++ LF ++ "cpu variation : 4x" ++ LF
              ++ "cpu variation : 4" ++ LF)%string
             [("cpu variation : 3" ++ LF)%string]
             [("cpu variation : 4" ++ LF)%string]
             ("cpu variation : 4x" ++ LF)%string).
    + reflexivity.
    + vm_compute. reflexivity.
    + repeat constructor. vm_compute. discriminate.
    + vm_compute. reflexivity.
  - apply (proj2 (proj2 (get_host_failure_keeps_definition
             (host_with ("cpu variation" ++ LF)%string) 0 cpu None None))
             (-1) _ (Some MalformedHostInfo)).
    + vm_compute. reflexivity.
    + lia.
Defined.

(* ===================================================================== *)
(** ** Further properties: the model map *)
(* ===================================================================== *)

Lemma sw64ModelFind_from_Some (models : list sw64Model) (name : string)
    (m : sw64Model) :
  sw64ModelFind_from models name = Some m ->
  sw64Model.name m = name /\ In m models.
Proof.
  induction models as [|m0 rest IH]; simpl; [discriminate|].
  unfold STREQ. destruct (String.eqb_spec (sw64Model.name m0) name).
  - intro H. injection H as <-. auto.
  - intro H. destruct (IH H). auto.
Qed.

Lemma sw64ModelFind_from_app (l1 l2 : list sw64Model) (name : string) :
  sw64ModelFind_from (l1 ++ l2) name
  = match sw64ModelFind_from l1 name with
    | Some m => Some m
    | None => sw64ModelFind_from l2 name
    end.
Proof.
  induction l1 as [|m rest IH]; simpl; [reflexivity|].
  destruct (STREQ (sw64Model.name m) name); [reflexivity | exact IH].
Qed.

Lemma sw64ModelParse_outcome (ctxt : xmlXPathContextPtr) (name : string)
    (map : sw64Map) (e : virLastError) :
  (~ In name (map_names map)
   /\ sw64ModelParse ctxt name map e
      = ((0, VIR_APPEND_ELEMENT map (sw64Model.mk name)), e))
  \/ (In name (map_names map)
      /\ sw64ModelParse ctxt name map e
         = ((-1, map), Some (DuplicateModel name))).
Proof.
  destruct (in_dec string_dec name (map_names map)) as [Hin | Hnotin].
  - right. split; [exact Hin|]. apply sw64ModelParse_dup. exact Hin.
  - left. split; [exact Hnotin|]. apply sw64ModelParse_fresh. exact Hnotin.
Qed.

(** X1: a lookup fails exactly for the names that no model of the map
    carries, and a model it returns is a model of the map that carries the
    name asked for. *)
Theorem sw64ModelFind_sound_complete (map : sw64Map) (name : string) :
  (sw64ModelFind map name = None <-> ~ In name (map_names map))
  /\ (forall m : sw64Model,
         sw64ModelFind map name = Some m ->
         sw64Model.name m = name /\ In m (sw64Map.models map)).
Proof.
  split.
  - apply sw64ModelFind_from_None.
  - intros m. apply sw64ModelFind_from_Some.
Qed.

Lemma sw64ModelFind_sound_complete_witness :
  let map :=
    sw64Map.mk [sw64Model.mk "core3"; sw64Model.mk "core4"] in
  sw64Model.name (sw64Model.mk "core4") = "core4"%string
  /\ In (sw64Model.mk "core4") (sw64Map.models map).
Proof.
  intro map.
  apply (proj2 (sw64ModelFind_sound_complete map "core4")
               (sw64Model.mk "core4")).
  reflexivity.
Defined.

(** X2: after a registration attempt, accepted or not, the name is found
    in the map, and the lookup of every other name answers as before. *)
Theorem sw64ModelParse_then_find (ctxt : xmlXPathContextPtr) (name : string)
    (map map' : sw64Map) (rc : Z) (e e' : virLastError) :
  sw64ModelParse ctxt name map e = ((rc, map'), e') ->
  (exists m : sw64Model,
      sw64ModelFind map' name = Some m /\ sw64Model.name m = name)
  /\ (forall other : string,
         other <> name ->
         sw64ModelFind map' other = sw64ModelFind map other).
Proof.
  intro Hparse.
  destruct (sw64ModelParse_outcome ctxt name map e)
    as [[Hfresh Hres] | [Hdup Hres]];
    rewrite Hres in Hparse; injection Hparse as <- <- <-.
  - pose proof (proj2 (sw64ModelFind_from_None _ _) Hfresh) as Hnone.
    unfold sw64ModelFind, VIR_APPEND_ELEMENT. cbn [sw64Map.models].
    split.
    + exists (sw64Model.mk name).
      rewrite sw64ModelFind_from_app, Hnone. cbn. unfold STREQ.
      rewrite String.eqb_refl. auto.
    + intros other Hother. rewrite sw64ModelFind_from_app.
      destruct (sw64ModelFind_from (sw64Map.models map) other);
        [reflexivity|].
      cbn. unfold STREQ.
      destruct (String.eqb_spec name other); [congruence | reflexivity].
  - split; [|reflexivity].
    destruct (sw64ModelFind map name) as [m|] eqn:Hfind.
    + exists m. split; [reflexivity|].
      apply (sw64ModelFind_from_Some _ _ _ Hfind).
    + apply sw64ModelFind_from_None in Hfind. contradiction.
Qed.

Lemma sw64ModelParse_then_find_witness :
  let map := sw64Map.mk [sw64Model.mk "core3"] in
  let map' := sw64Map.mk [sw64Model.mk "core3"; sw64Model.mk "core4"] in
  (exists m : sw64Model,
      sw64ModelFind map' "core4" = Some m
      /\ sw64Model.name m = "core4"%string)
  /\ (forall other : string,
         other <> "core4"%string ->
         sw64ModelFind map' other = sw64ModelFind map other).
Proof.
  intros map map'.
  apply (sw64ModelParse_then_find tt "core4" map map' 0 None None).
  reflexivity.
Defined.

(** X3: a registration attempt keeps the names of the map pairwise
    distinct; it grows the map by exactly the new name when it is
    accepted and leaves the map as it was when it is rejected. *)
Theorem sw64ModelParse_keeps_names_distinct (ctxt : xmlXPathContextPtr)
    (name : string) (map map' : sw64Map) (rc : Z) (e e' : virLastError) :
  NoDup (map_names map) ->
  sw64ModelParse ctxt name map e = ((rc, map'), e') ->
  NoDup (map_names map')
  /\ ((rc = 0 /\ map_names map' = map_names map ++ [name])
      \/ (rc = -1 /\ map' = map)).
Proof.
  intros Hnodup Hparse.
  destruct (sw64ModelParse_outcome ctxt name map e)
    as [[Hfresh Hres] | [Hdup Hres]];
    rewrite Hres in Hparse; injection Hparse as <- <- <-.
  - rewrite map_names_append. split; [|left; auto].
    apply NoDup_app; auto.
    + repeat constructor. simpl. tauto.
    + intros x Hx [Hy | []]. subst. contradiction.
  - split; [exact Hnodup | right; auto].
Qed.

Lemma sw64ModelParse_keeps_names_distinct_witness :
  let map := sw64Map.mk [sw64Model.mk "core3"] in
  let map' := sw64Map.mk [sw64Model.mk "core3"; sw64Model.mk "core4"] in
  NoDup (map_names map')
  /\ ((0 = 0 /\ map_names map' = map_names map ++ ["core4"%string])
      \/ (0 = -1 /\ map' = map)).
Proof.
  intros map map'.
  apply (sw64ModelParse_keeps_names_distinct tt "core4" map map' 0 None
           None).
  - repeat constructor. simpl. tauto.
  - reflexivity.
Defined.

(** X4: a registration is rejected exactly when the name is already in
    the map; the rejection returns -1, reports the duplicate with the
    name, and returns the map unchanged. *)
Theorem sw64ModelParse_rejects_known_names (ctxt : xmlXPathContextPtr)
    (name : string) (map : sw64Map) (e : virLastError) :
  In name (map_names map)
  <-> sw64ModelParse ctxt name map e
      = ((-1, map), Some (DuplicateModel name)).
Proof.
  split.
  - apply sw64ModelParse_dup.
  - intro Hres.
    destruct (sw64ModelParse_outcome ctxt name map e)
      as [[Hfresh Hres'] | [Hdup _]]; [|exact Hdup].
    rewrite Hres' in Hres. discriminate.
Qed.

Lemma sw64ModelParse_rejects_known_names_witness :
  let map := sw64Map.mk [sw64Model.mk "core3"; sw64Model.mk "core4"] in
  sw64ModelParse tt "core4" map None
  = ((-1, map), Some (DuplicateModel "core4")).
Proof.
  intro map.
  apply (proj1 (sw64ModelParse_rejects_known_names tt "core4" map None)).
  simpl. right. left. reflexivity.
Defined.

Lemma sw64LoadMap_distinct (names : list string) (e : virLastError) :
  NoDup names ->
  sw64LoadMap (cpuMapModels names) e
  = (Some (sw64Map.mk (List.map sw64Model.mk names)), e).
Proof.
  intro Hnodup. unfold sw64LoadMap, cpuMapLoad, bind.
  rewrite cpuMapLoadModels_distinct by exact Hnodup. reflexivity.
Qed.

Lemma sw64LoadMap_duplicate (names : list string) (e : virLastError) :
  ~ NoDup names ->
  exists dup : string,
    sw64LoadMap (cpuMapModels names) e = (None, Some (DuplicateModel dup)).
Proof.
  intro Hdup.
  destruct (first_duplicate names [] (NoDup_nil _) Hdup)
    as (pre & dup & post & Heq & Hnd & Hin).
  simpl in Hnd, Hin. exists dup. subst names.
  unfold sw64LoadMap, cpuMapLoad, bind.
  destruct (cpuMapLoadModels_duplicate pre dup post sw64Map_new0 e Hnd Hin)
    as [map' Hload].
  rewrite Hload. reflexivity.
Qed.

Lemma map_names_mk (names : list string) :
  map_names (sw64Map.mk (List.map sw64Model.mk names)) = names.
Proof.
  unfold map_names. cbn. rewrite map_map. cbn. apply map_id.
Qed.

(** X5: a map built from pairwise distinct declared names finds exactly
    the declared names: the build succeeds without a report, and a lookup
    in the built map succeeds if and only if the name was declared. *)
Theorem sw64LoadMap_then_find (names : list string) (e : virLastError) :
  NoDup names ->
  exists map : sw64Map,
    sw64LoadMap (cpuMapModels names) e = (Some map, e)
    /\ map_names map = names
    /\ forall name : string,
         sw64ModelFind map name <> None <-> In name names.
Proof.
  intro Hnodup. exists (sw64Map.mk (List.map sw64Model.mk names)).
  split; [apply sw64LoadMap_distinct; exact Hnodup|].
  split; [apply map_names_mk|].
  intro name.
  pose proof (sw64ModelFind_from_None
                (List.map sw64Model.mk names) name) as Hnone.
  rewrite map_map in Hnone. cbn [sw64Model.name] in Hnone.
  rewrite map_id in Hnone.
  unfold sw64ModelFind. cbn [sw64Map.models].
  destruct (in_dec string_dec name names) as [Hin | Hnotin]; split; intro H;
    try assumption; try contradiction.
  - intro Habs. apply Hnone in Habs. contradiction.
  - exfalso. apply H. apply Hnone. exact Hnotin.
Qed.

Lemma sw64LoadMap_then_find_witness :
  exists map : sw64Map,
    sw64LoadMap (cpuMapModels ["core3"; "core4"]) None = (Some map, None)
    /\ map_names map = ["core3"%string; "core4"%string]
    /\ forall name : string,
         sw64ModelFind map name <> None
         <-> In name ["core3"%string; "core4"%string].
Proof.
  apply (sw64LoadMap_then_find ["core3"; "core4"] None).
  repeat constructor; simpl; intuition discriminate.
Defined.

(** X6: whenever the listing hands a list to the caller, the list is the
    sequence the database declares, its names are pairwise distinct,
    nothing was reported, and the status is the length of the list as the
    [int] carries it: the length itself whenever it is at most INT_MAX. *)
Theorem listed_models_are_the_declared_ones (db : cpuMapSource)
    (slot : option (list string)) (names : list string) (ret : Z)
    (e e' : virLastError) :
  virCPUsw64DriverGetModels db (Some slot) e
  = ((ret, Some (Some names)), e') ->
  db = cpuMapModels names
  /\ NoDup names
  /\ ret = int_of_size_t (List.length names)
  /\ (Z.of_nat (List.length names) <= INT_MAX ->
      ret = Z.of_nat (List.length names))
  /\ e' = e.
Proof.
  destruct db as [err | declared].
  - unfold virCPUsw64DriverGetModels, sw64LoadMap, cpuMapLoad, bind.
    cbn. intro H. discriminate.
  - destruct (ListDec.NoDup_dec string_dec declared) as [Hnodup | Hdup].
    + rewrite (listing_of_distinct_names declared (Some slot) e Hnodup).
      intro H. injection H as <- <- <-.
      repeat split; try assumption; try reflexivity.
      apply int_of_size_t_small.
    + destruct (sw64LoadMap_duplicate declared e Hdup) as [dup Hload].
      unfold virCPUsw64DriverGetModels, bind. rewrite Hload.
      intro H. discriminate.
Qed.

Lemma listed_models_are_the_declared_ones_witness :
  cpuMapModels ["core3"; "core4"] = cpuMapModels ["core3"; "core4"]
  /\ NoDup ["core3"%string; "core4"%string]
  /\ 2 = int_of_size_t (List.length ["core3"%string; "core4"%string])
  /\ (Z.of_nat (List.length ["core3"%string; "core4"%string]) <= INT_MAX ->
      2 = Z.of_nat (List.length ["core3"%string; "core4"%string]))
  /\ (None : virLastError) = None.
Proof.
  apply (listed_models_are_the_declared_ones
           (cpuMapModels ["core3"; "core4"]) (Some ["stale"%string])
           ["core3"%string; "core4"%string] 2 None None).
  reflexivity.
Defined.

(* ===================================================================== *)
(** ** Further properties: parsing a buffer *)
(* ===================================================================== *)

Lemma digit_value_nonneg (c : ascii) :
  is_digit c = true -> 0 <= digit_value c <= 9.
Proof.
  unfold is_digit, digit_value. intro H.
  apply andb_true_iff in H. destruct H as [Hlo Hhi].
  apply Z.leb_le in Hlo, Hhi. lia.
Qed.

Lemma read_digits_nonneg (s : string) :
  forall acc : Z, 0 <= acc -> 0 <= fst (read_digits s acc).
Proof.
  induction s as [|c s IH]; intros acc Hacc; cbn [read_digits fst];
    [exact Hacc|].
  destruct (is_digit c) eqn:Hd; [|exact Hacc].
  apply IH. pose proof (digit_value_nonneg c Hd). lia.
Qed.

Lemma virStrToLong_ui_range (s p : string) (result ui : Z) :
  virStrToLong_ui s result = (0, p, ui) -> 0 <= ui <= UINT_MAX.
Proof.
  unfold virStrToLong_ui.
  pose proof (read_digits_nonneg s 0 (Z.le_refl 0)) as Hnonneg.
  destruct (read_digits s 0) as [val q]. simpl in Hnonneg.
  destruct (is_digit (deref s) && (val <=? UINT_MAX)) eqn:Hok;
    [|discriminate].
  intro H. injection H as _ <-.
  apply andb_true_iff in Hok. destruct Hok as [_ Hle].
  apply Z.leb_le in Hle. lia.
Qed.

(** X7: whatever the buffer and the label, parsing has one of three
    outcomes: status 0 with a value that fits an unsigned int stored and
    nothing reported; status 1 with [*mode] and the last error as they
    were; status -1 with [*mode] as it was and the malformed report as
    last error. *)
Theorem sw64CPUParseCpuModeString_outcomes (str prefix : string) (mode : Z)
    (e : virLastError) :
  (exists ui : Z,
      0 <= ui <= UINT_MAX
      /\ sw64CPUParseCpuModeString str prefix mode e = ((0, ui), e))
  \/ sw64CPUParseCpuModeString str prefix mode e = ((1, mode), e)
  \/ sw64CPUParseCpuModeString str prefix mode e
     = ((-1, mode), Some MalformedHostInfo).
Proof.
  unfold sw64CPUParseCpuModeString, MalformedHostInfo. vir_unfold.
  destruct (negb (STRPREFIX str prefix)); [auto|].
  set (str1 := skip_whitespace (advance _ str)).
  destruct (Ascii.eqb (deref str1) NUL); [auto|].
  destruct (negb (Ascii.eqb (deref str1) ":")); [auto|].
  set (str2 := skip_whitespace (incr str1)).
  destruct (Ascii.eqb (deref str2) NUL); [auto|].
  destruct (virStrToLong_ui str2 0) as [[rc p] ui] eqn:Hnum.
  destruct ((rc <? 0)
            || negb (Ascii.eqb (deref p) ".")
               && negb (Ascii.eqb (deref p) NUL)
               && negb (g_ascii_isspace (deref p))) eqn:Hbad; [auto|].
  left. exists ui. split; [|reflexivity].
  apply orb_false_iff in Hbad. destruct Hbad as [Hrc _].
  destruct (virStrToLong_ui_cases str2) as [(p' & ui' & H) | (p' & H)];
    rewrite H in Hnum; injection Hnum as <- <- <-.
  - apply (virStrToLong_ui_range str2 p' 0 ui' (H 0)).
  - discriminate.
Qed.

Lemma skip_whitespace_stops (s : string) :
  g_ascii_isspace (deref s) = false -> skip_whitespace s = s.
Proof.
  destruct s as [|c s]; simpl; [reflexivity|].
  intros ->. reflexivity.
Qed.

Lemma skip_whitespace_app (ws s : string) :
  all_whitespace ws = true ->
  g_ascii_isspace (deref s) = false ->
  skip_whitespace (ws ++ s)%string = s.
Proof.
  intros Hws Hs. induction ws as [|c ws IH]; simpl.
  - apply skip_whitespace_stops. exact Hs.
  - simpl in Hws. apply andb_true_iff in Hws. destruct Hws as [Hc Hws].
    rewrite Hc. apply IH. exact Hws.
Qed.

Lemma nat_of_digit_char (d : nat) :
  (d < 10)%nat -> nat_of_ascii (digit_char d) = (48 + d)%nat.
Proof.
  intro Hd. unfold digit_char. apply nat_ascii_embedding. lia.
Qed.

Lemma is_digit_digit_char (d : nat) :
  (d < 10)%nat -> is_digit (digit_char d) = true.
Proof.
  intro Hd. unfold is_digit. rewrite (nat_of_digit_char d Hd).
  apply andb_true_iff. split; apply Z.leb_le; lia.
Qed.

Lemma digit_value_digit_char (d : nat) :
  (d < 10)%nat -> digit_value (digit_char d) = Z.of_nat d.
Proof.
  intro Hd. unfold digit_value. rewrite (nat_of_digit_char d Hd). lia.
Qed.

Lemma is_digit_not_space (c : ascii) :
  is_digit c = true -> g_ascii_isspace c = false.
Proof.
  unfold is_digit, g_ascii_isspace. intro H.
  apply andb_true_iff in H. destruct H as [Hlo Hhi].
  apply Z.leb_le in Hlo, Hhi.
  assert (Hn : (48 <= nat_of_ascii c)%nat) by lia.
  destruct (nat_of_ascii c) as [|n]; [lia|].
  do 32 (destruct n as [|n]; [lia|]). reflexivity.
Qed.

Lemma ends_number_not_digit (c : ascii) :
  ends_number c = true -> is_digit c = false.
Proof.
  intro Hend. destruct (is_digit c) eqn:Hd; [|reflexivity].
  pose proof (is_digit_not_space c Hd) as Hspace.
  unfold ends_number in Hend. rewrite Hspace, orb_false_r in Hend.
  apply orb_true_iff in Hend.
  destruct Hend as [H | H]; apply Ascii.eqb_eq in H; subst c; discriminate.
Qed.

Lemma read_digits_stops (s : string) (acc : Z) :
  is_digit (deref s) = false -> read_digits s acc = (acc, s).
Proof.
  destruct s as [|c s]; simpl; [reflexivity|]. intros ->. reflexivity.
Qed.

Lemma read_digits_decimal (ds : list nat) (tail : string) :
  Forall (fun d => (d < 10)%nat) ds ->
  is_digit (deref tail) = false ->
  forall acc : Z,
    read_digits (decimal_string ds ++ tail)%string acc
    = (fold_left (fun a d => 10 * a + Z.of_nat d) ds acc, tail).
Proof.
  intros Hds Htail. induction Hds as [|d ds Hd _ IH]; intro acc.
  - apply read_digits_stops. exact Htail.
  - cbn [decimal_string String.append read_digits fold_left].
    rewrite (is_digit_digit_char d Hd), (digit_value_digit_char d Hd).
    apply IH.
Qed.

Lemma decimal_variation_line (ws1 ws2 tail : string) (ds : list nat)
    (mode : Z) (e : virLastError) :
  all_whitespace ws1 = true ->
  all_whitespace ws2 = true ->
  ds <> [] ->
  Forall (fun d => (d < 10)%nat) ds ->
  decimal_value ds <= UINT_MAX ->
  ends_number (deref tail) = true ->
  sw64CPUParseCpuModeString
    (cpu_variation_prefix ++ ws1 ++ ":" ++ ws2 ++ decimal_string ds ++ tail)
    cpu_variation_prefix mode e
  = ((0, decimal_value ds), e).
Proof.
  intros Hws1 Hws2 Hne Hds Hfit Hend.
  destruct ds as [|d ds]; [congruence|].
  pose proof (Forall_inv Hds) as Hd.
  assert (Hfirst :
            deref (decimal_string (d :: ds) ++ tail)%string = digit_char d)
    by reflexivity.
  rewrite variation_line_start. cbv zeta.
  rewrite (skip_whitespace_app ws1) by (exact Hws1 || reflexivity).
  cbn [String.append deref incr Ascii.eqb negb].
  change (Ascii.eqb ":" NUL) with false.
  change (Ascii.eqb ":" ":") with true. cbv iota. cbn [negb].
  rewrite (skip_whitespace_app ws2);
    [|exact Hws2
     |rewrite Hfirst; apply is_digit_not_space, is_digit_digit_char, Hd].
  rewrite (is_digit_not_NUL _
             (eq_trans (f_equal is_digit Hfirst) (is_digit_digit_char d Hd))).
  unfold virStrToLong_ui.
  rewrite (read_digits_decimal (d :: ds) tail Hds
             (ends_number_not_digit _ Hend) 0).
  fold (decimal_value (d :: ds)).
  rewrite Hfirst, (is_digit_digit_char d Hd).
  rewrite (proj2 (Z.leb_le _ _) Hfit). cbn [andb Z.ltb Z.compare orb].
  unfold ends_number in Hend.
  destruct (Ascii.eqb (deref tail) "."); [reflexivity|].
  destruct (Ascii.eqb (deref tail) NUL); [reflexivity|].
  cbn in Hend. rewrite Hend. reflexivity.
Qed.

(** X8: a buffer made of the label, optional white space, a colon,
    optional white space, a decimal numeral that fits an unsigned int and
    then the end of the text, white space or a dot is parsed with status
    0 to the number the numeral denotes, without a report. *)
Theorem variation_line_accepted (ws1 ws2 tail : string) (ds : list nat)
    (mode : Z) (e : virLastError) :
  all_whitespace ws1 = true ->
  all_whitespace ws2 = true ->
  ds <> [] ->
  Forall (fun d => (d < 10)%nat) ds ->
  decimal_value ds <= UINT_MAX ->
  ends_number (deref tail) = true ->
  sw64CPUParseCpuModeString
    (cpu_variation_prefix ++ ws1 ++ ":" ++ ws2 ++ decimal_string ds ++ tail)
    cpu_variation_prefix mode e
  = ((0, decimal_value ds), e).
Proof.
  intros Hws1 Hws2 Hne Hds Hfit Hend.
  apply decimal_variation_line; assumption.
Qed.

Lemma variation_line_accepted_witness :
  sw64CPUParseCpuModeString
    ("cpu variation" ++ String (ascii_of_nat 9) "" ++ ":" ++ " "
     ++ "42" ++ LF)%string
    cpu_variation_prefix 7 None
  = ((0, 42), None).
Proof.
  apply (variation_line_accepted (String (ascii_of_nat 9) "") " " LF
           [4%nat; 2%nat] 7 None).
  - reflexivity.
  - reflexivity.
  - discriminate.
  - repeat constructor.
  - vm_compute. discriminate.
  - reflexivity.
Defined.

(* ===================================================================== *)
(** ** Further properties: scanning the source *)
(* ===================================================================== *)

Lemma line_status_range (line : string) :
  line_status line = 0 \/ line_status line = 1 \/ line_status line = -1.
Proof.
  destruct (sw64CPUParseCpuModeString_cases line 0 None)
    as [[Hs _] | [[Hs _] | [Hs _]]]; auto.
Qed.

Lemma scan_lines_outcome (lines : list string) :
  forall (mode : Z) (e : virLastError),
    (Exists (fun l => line_status l = -1) lines
     /\ exists mode' : Z,
         scan_lines lines mode e = ((-1, mode'), Some MalformedHostInfo))
    \/ (Forall (fun l => line_status l <> -1) lines
        /\ exists mode' : Z, scan_lines lines mode e = ((0, mode'), e)).
Proof.
  induction lines as [|line rest IH]; intros mode e.
  - right. split; [constructor | exists mode; reflexivity].
  - cbn [scan_lines]. unfold bind.
    destruct (sw64CPUParseCpuModeString_cases line mode e)
      as [[Hs Hr] | [[Hs Hr] | [Hs Hr]]]; rewrite Hr;
      cbn [Z.ltb Z.compare]; unfold pure.
    + destruct (IH (line_value line) e)
        as [[Hex Hres] | [Hall Hres]].
      * left. split; [apply Exists_cons_tl; exact Hex | exact Hres].
      * right. split; [constructor; [lia | exact Hall] | exact Hres].
    + destruct (IH mode e) as [[Hex Hres] | [Hall Hres]].
      * left. split; [apply Exists_cons_tl; exact Hex | exact Hres].
      * right. split; [constructor; [lia | exact Hall] | exact Hres].
    + left. split; [apply Exists_cons_hd; exact Hs|].
      exists mode. reflexivity.
Qed.

Lemma Exists_not_Forall_malformed (lines : list string) :
  Exists (fun l => line_status l = -1) lines ->
  Forall (fun l => line_status l <> -1) lines ->
  False.
Proof.
  intros Hex Hall. apply Exists_exists in Hex.
  destruct Hex as (l & Hin & Hbad).
  rewrite Forall_forall in Hall. exact (Hall l Hin Hbad).
Qed.

(** X9: when no buffer of the source is a variation line -- the empty
    source included -- the scan succeeds, [*mode] keeps the content it had
    before the scan and nothing is reported. *)
Theorem scan_without_variation_line (cpuinfo : FILE) (mode : Z)
    (e : virLastError) :
  Forall (fun l => line_status l = 1) (cpuinfo_lines cpuinfo) ->
  sw64CPUParseCpuMode cpuinfo mode e = ((0, mode), e).
Proof.
  intro Hnone. rewrite sw64CPUParseCpuMode_scan_lines.
  apply scan_lines_nonmatching. exact Hnone.
Qed.

Lemma scan_without_variation_line_witness :
  sw64CPUParseCpuMode EmptyString 7 None = ((0, 7), None)
  /\ sw64CPUParseCpuMode
       ("cpu model : sw" ++ LF ++ "cpu variations : 3" ++ LF)%string 7 None
     = ((0, 7), None).
Proof.
  split.
  - apply (scan_without_variation_line EmptyString 7 None).
    replace (cpuinfo_lines EmptyString) with (@nil string)
      by (vm_compute; reflexivity).
    constructor.
  - apply (scan_without_variation_line
             ("cpu model : sw" ++ LF ++ "cpu variations : 3" ++ LF)%string
             7 None).
    replace (cpuinfo_lines _)
      with [("cpu model : sw" ++ LF)%string;
            ("cpu variations : 3" ++ LF)%string]
      by (vm_compute; reflexivity).
    repeat constructor; vm_compute; reflexivity.
Defined.



(** X11: the scan answers 0 or -1; it answers -1 exactly when some buffer
    of the source is malformed, and then the malformed report is the last
    error; when it answers 0 the last error is as it was. *)
Theorem scan_fails_iff_malformed_buffer (cpuinfo : FILE) (mode : Z)
    (e : virLastError) :
  (Exists (fun l => line_status l = -1) (cpuinfo_lines cpuinfo)
   <-> fst (fst (sw64CPUParseCpuMode cpuinfo mode e)) = -1)
  /\ ((exists mode' : Z,
          sw64CPUParseCpuMode cpuinfo mode e
          = ((-1, mode'), Some MalformedHostInfo))
      \/ (exists mode' : Z,
             sw64CPUParseCpuMode cpuinfo mode e = ((0, mode'), e))).
Proof.
  rewrite sw64CPUParseCpuMode_scan_lines.
  destruct (scan_lines_outcome (cpuinfo_lines cpuinfo) mode e)
    as [[Hex [mode' Hres]] | [Hall [mode' Hres]]]; rewrite Hres;
    cbn [fst].
  - split; [tauto | left; eauto].
  - split; [|right; eauto].
    split; [|discriminate].
    intro Hex. exfalso.
    exact (Exists_not_Forall_malformed _ Hex Hall).
Qed.

Lemma scan_fails_iff_malformed_buffer_witness :
  fst (fst (sw64CPUParseCpuMode
              ("cpu variation : 3" ++ LF ++ "cpu variation : x" ++ LF)%string
              7 None))
  = -1.
Proof.
  apply (proj1 (proj1 (scan_fails_iff_malformed_buffer
                         ("cpu variation : 3" ++ LF ++ "cpu variation : x"
                          ++ LF)%string 7 None))).
  replace (cpuinfo_lines _)
    with [("cpu variation : 3" ++ LF)%string;
          ("cpu variation : x" ++ LF)%string]
    by (vm_compute; reflexivity).
  apply Exists_cons_tl, Exists_cons_hd. vm_compute. reflexivity.
Defined.

(** X12: detection has two outcomes.  Either it answers 0, reports
    nothing and returns a definition with the mode, match and features
    that were passed in, whose model is the one passed in, core3 or core4;
    or it answers -1, returns the definition as it was passed, and the
    last error is the malformed report or the report of the failed
    open. *)
Theorem get_host_outcomes (fs : filesystem) (uninit : Z) (cpu : virCPUDef)
    (models : option virDomainCapsCPUModels) (e : virLastError) :
  (exists cpu' : virCPUDef,
      virCPUsw64GetHost fs uninit cpu models e = ((0, cpu'), e)
      /\ virCPUDef.mode cpu' = virCPUDef.mode cpu
      /\ virCPUDef.match_ cpu' = virCPUDef.match_ cpu
      /\ virCPUDef.features cpu' = virCPUDef.features cpu
      /\ (virCPUDef.model cpu' = virCPUDef.model cpu
          \/ virCPUDef.model cpu' = Some "core3"%string
          \/ virCPUDef.model cpu' = Some "core4"%string))
  \/ (exists err : virError,
         virCPUsw64GetHost fs uninit cpu models e = ((-1, cpu), Some err)
         /\ (err = MalformedHostInfo
             \/ exists theerrno : Z, err = SourceUnavailable theerrno)).
Proof.
  destruct (fs CPUINFO_PATH) as [theerrno | cpuinfo] eqn:Hfile.
  - right. exists (SourceUnavailable theerrno).
    unfold virCPUsw64GetHost, fopen. rewrite Hfile.
    split; [reflexivity | right; eauto].
  - destruct (scan_lines_outcome (cpuinfo_lines cpuinfo) uninit e)
      as [[_ [mode' Hres]] | [_ [mode' Hres]]];
      rewrite <- sw64CPUParseCpuMode_scan_lines in Hres.
    + right. exists MalformedHostInfo.
      unfold virCPUsw64GetHost, fopen, bind. rewrite Hfile, Hres.
      split; [reflexivity | left; reflexivity].
    + left.
      destruct (get_host_after_scan fs cpuinfo uninit mode' cpu models e e
                  Hfile Hres)
        as (cpu' & Hcall & Hmode & Hmatch & Hfeatures & Hmodel & _).
      exists cpu'. repeat (split; [assumption|]).
      destruct (mode' =? 3); [auto|]. destruct (mode' =? 4); auto.
Qed.

(* ===================================================================== *)
(** ** Further properties: update *)
(* ===================================================================== *)

(** X13: a guest that a relative update has resolved is a fixed point:
    when an update with [relative] true answers 0, the guest it returns is
    not in mode HOST_MODEL any more, and any later update, with whatever
    host and flags, answers 0, returns it unchanged and reports
    nothing. *)
Theorem update_resolved_guest_is_fixed_point (guest guest' : virCPUDef)
    (host : option virCPUDef) (removedPolicy : virCPUFeaturePolicy)
    (e e' : virLastError) :
  virCPUsw64Update guest host true removedPolicy e = ((0, guest'), e') ->
  virCPUDef.mode guest' <> VIR_CPU_MODE_HOST_MODEL
  /\ forall (host2 : option virCPUDef) (relative2 : bool)
            (removedPolicy2 : virCPUFeaturePolicy) (e2 : virLastError),
      virCPUsw64Update guest' host2 relative2 removedPolicy2 e2
      = ((0, guest'), e2).
Proof.
  intro Hfirst.
  assert (Hmode : virCPUDef.mode guest' <> VIR_CPU_MODE_HOST_MODEL).
  { unfold virCPUsw64Update in Hfirst. cbn [negb orb] in Hfirst.
    destruct (virCPUMode_eqb (virCPUDef.mode guest) VIR_CPU_MODE_HOST_MODEL)
      eqn:Hm.
    - cbn [negb] in Hfirst. destruct host as [h|].
      + cbn in Hfirst. unfold pure in Hfirst.
        injection Hfirst as <- _. cbn. discriminate.
      + vir_unfold. cbn in Hfirst. discriminate.
    - cbn [negb] in Hfirst. unfold pure in Hfirst.
      injection Hfirst as <- _. apply virCPUMode_eqb_neq. exact Hm. }
  split; [exact Hmode|].
  intros host2 relative2 removedPolicy2 e2.
  unfold virCPUsw64Update.
  apply virCPUMode_eqb_neq in Hmode. rewrite Hmode, orb_true_r.
  reflexivity.
Qed.

Lemma update_resolved_guest_is_fixed_point_witness :
  let guest :=
    virCPUDef.mk VIR_CPU_MODE_HOST_MODEL VIR_CPU_MATCH_MINIMUM
                 (Some "core3") ["f"] in
  let host :=
    virCPUDef.mk VIR_CPU_MODE_CUSTOM VIR_CPU_MATCH_STRICT
                 (Some "core4") [] in
  let guest' :=
    virCPUDef.mk VIR_CPU_MODE_CUSTOM VIR_CPU_MATCH_EXACT
                 (Some "core4") [] in
  virCPUDef.mode guest' <> VIR_CPU_MODE_HOST_MODEL
  /\ forall (host2 : option virCPUDef) (relative2 : bool)
            (removedPolicy2 : virCPUFeaturePolicy) (e2 : virLastError),
      virCPUsw64Update guest' host2 relative2 removedPolicy2 e2
      = ((0, guest'), e2).
Proof.
  intros guest host guest'.
  apply (update_resolved_guest_is_fixed_point guest guest' (Some host)
           VIR_CPU_FEATURE_REQUIRE None None).
  reflexivity.
Defined.

(* ===================================================================== *)
(** ** Further properties: how the source is cut into buffers *)
(* ===================================================================== *)

Lemma string_length_app (a b : string) :
  String.length (a ++ b)%string = (String.length a + String.length b)%nat.
Proof. induction a as [|c a IH]; simpl; [reflexivity | now rewrite IH]. Qed.

(** Induction along the reads of the scan. *)
Lemma cpuinfo_read_ind (P : FILE -> Prop) :
  (forall s : FILE, fgets 1024 s = None -> P s) ->
  (forall (s : FILE) (line : string) (rest : FILE),
      fgets 1024 s = Some (line, rest) -> P rest -> P s) ->
  forall s : FILE, P s.
Proof.
  intros Hend Hstep s.
  remember (String.length s) as n eqn:Hn.
  revert s Hn. induction n as [n IH] using lt_wf_ind. intros s Hn.
  destruct (fgets 1024 s) as [[line rest]|] eqn:Hread.
  - apply (Hstep s line rest Hread).
    apply (IH (String.length rest)); [|reflexivity].
    subst n. apply (fgets_consumes 1024 s line rest); [lia | exact Hread].
  - apply Hend. exact Hread.
Qed.

Lemma fgets_read_join (room : nat) :
  forall s : FILE,
    (fst (fgets_read room s) ++ snd (fgets_read room s))%string = s.
Proof.
  induction room as [|room IH]; intros [|c s]; simpl; try reflexivity.
  destruct (Ascii.eqb c newline); [reflexivity|].
  specialize (IH s). destruct (fgets_read room s) as [l r].
  simpl in *. rewrite IH. reflexivity.
Qed.

Lemma fgets_join (size : nat) (s : FILE) (line : string) (rest : FILE) :
  fgets size s = Some (line, rest) -> (line ++ rest)%string = s.
Proof.
  destruct s as [|c s]; [discriminate|]. unfold fgets. intro H.
  injection H as H.
  pose proof (fgets_read_join (size - 1) (String c s)) as Hjoin.
  rewrite H in Hjoin. exact Hjoin.
Qed.

(** X14: cutting the source into buffers loses nothing: the buffers that
    successive [fgets] calls on the 1024-byte buffer hand out up to the
    end of input, put one after the other, are the text of the source,
    with no byte dropped, repeated or reordered. *)
Theorem buffers_cover_the_source (cpuinfo : FILE) :
  join_buffers (cpuinfo_lines cpuinfo) = cpuinfo.
Proof.
  induction cpuinfo as [s Hend | s line rest Hread IH]
    using cpuinfo_read_ind;
    rewrite cpuinfo_lines_step; rewrite_fgets.
  - destruct s; [reflexivity | discriminate].
  - cbn [join_buffers fold_right]. fold (join_buffers (cpuinfo_lines rest)).
    rewrite IH. apply (fgets_join 1024). exact Hread.
Qed.

Lemma fgets_read_shape (room : nat) :
  forall s : FILE,
    (String.length (fst (fgets_read room s)) <= room)%nat
    /\ exists body : string,
        no_newline body = true
        /\ (fst (fgets_read room s) = body
            \/ fst (fgets_read room s) = (body ++ LF)%string).
Proof.
  induction room as [|room IH]; intros [|c s]; simpl;
    try (split; [lia | exists EmptyString; auto]).
  destruct (Ascii.eqb c newline) eqn:Hc.
  - apply Ascii.eqb_eq in Hc. subst c. simpl.
    split; [lia | exists EmptyString; auto].
  - destruct (IH s) as [Hlen (body & Hbody & Hline)].
    destruct (fgets_read room s) as [l r]. simpl in *.
    split; [lia|].
    exists (String c body). simpl. rewrite Hc, Hbody.
    split; [reflexivity|].
    destruct Hline as [-> | ->]; auto.
Qed.

Lemma fgets_shape (size : nat) (s : FILE) (line : string) (rest : FILE) :
  fgets size s = Some (line, rest) ->
  (String.length line <= size - 1)%nat
  /\ exists body : string,
      no_newline body = true
      /\ (line = body \/ line = (body ++ LF)%string).
Proof.
  destruct s as [|c s]; [discriminate|]. unfold fgets. intro H.
  injection H as H.
  pose proof (fgets_read_shape (size - 1) (String c s)) as Hshape.
  rewrite H in Hshape. exact Hshape.
Qed.

(** X15: every buffer the scan is handed has between 1 and 1023 bytes and
    contains no newline except possibly as its last byte. *)
Theorem buffers_have_line_shape (cpuinfo : FILE) :
  Forall buffer_shape (cpuinfo_lines cpuinfo).
Proof.
  induction cpuinfo as [s Hend | s line rest Hread IH]
    using cpuinfo_read_ind;
    rewrite cpuinfo_lines_step; rewrite_fgets; constructor; [|exact IH].
  destruct (fgets_shape 1024 s line rest Hread) as [Hlen Hbody].
  pose proof (fgets_consumes 1024 s line rest ltac:(lia) Hread) as Hlt.
  pose proof (fgets_join 1024 s line rest Hread) as Hjoin.
  split; [|exact Hbody].
  apply (f_equal String.length) in Hjoin.
  rewrite string_length_app in Hjoin. lia.
Qed.

Lemma no_newline_app (a b : string) :
  no_newline (a ++ b)%string = no_newline a && no_newline b.
Proof.
  induction a as [|c a IH]; simpl; [reflexivity|].
  rewrite IH. apply andb_assoc.
Qed.

Lemma fgets_read_line (l : string) :
  forall (room : nat) (rest : FILE),
    no_newline l = true ->
    (String.length l < room)%nat ->
    fgets_read room (l ++ LF ++ rest)%string = ((l ++ LF)%string, rest).
Proof.
  induction l as [|c l IH]; intros room rest Hnl Hlen.
  - destruct room as [|room]; [simpl in Hlen; lia|].
    reflexivity.
  - destruct room as [|room]; [simpl in Hlen; lia|].
    simpl in Hnl, Hlen. apply andb_true_iff in Hnl.
    destruct Hnl as [Hc Hnl]. apply negb_true_iff in Hc.
    cbn [String.append fgets_read]. rewrite Hc.
    rewrite (IH room rest Hnl) by lia. reflexivity.
Qed.

Lemma fgets_line (l : string) (rest : FILE) :
  no_newline l = true ->
  (String.length l <= 1022)%nat ->
  fgets 1024 (l ++ LF ++ rest)%string = Some ((l ++ LF)%string, rest).
Proof.
  intros Hnl Hlen.
  assert (Hread :
            fgets_read (1024 - 1) (l ++ LF ++ rest)%string
            = ((l ++ LF)%string, rest)).
  { apply fgets_read_line; [exact Hnl|].
    replace (1024 - 1)%nat with (S 1022) by lia. lia. }
  unfold fgets. rewrite Hread.
  destruct l; reflexivity.
Qed.

Lemma cpuinfo_lines_text_of_lines (lines : list string) :
  Forall (fun l => no_newline l = true /\ (String.length l <= 1022)%nat)
         lines ->
  cpuinfo_lines (text_of_lines lines)
  = List.map (fun l => (l ++ LF)%string) lines.
Proof.
  induction 1 as [|l rest [Hnl Hlen] _ IH].
  - rewrite cpuinfo_lines_step. reflexivity.
  - rewrite cpuinfo_lines_step. cbn [text_of_lines List.map].
    rewrite (fgets_line l (text_of_lines rest) Hnl Hlen), IH.
    reflexivity.
Qed.

(** X16: a text whose lines have no more than 1022 bytes before their
    closing newline is cut into its lines: the buffers of the scan are the
    lines of the text, each with its newline, in order. *)
Theorem short_lines_are_read_whole (lines : list string) :
  Forall (fun l => no_newline l = true /\ (String.length l <= 1022)%nat)
         lines ->
  cpuinfo_lines (text_of_lines lines)
  = List.map (fun l => (l ++ LF)%string) lines.
Proof.
  intro Hshort. rewrite (cpuinfo_lines_text_of_lines lines Hshort).
  reflexivity.
Qed.

Lemma short_lines_are_read_whole_witness :
  cpuinfo_lines (text_of_lines ["cpu model : sw"%string;
                                "cpu variation : 4"%string])
  = [("cpu model : sw" ++ LF)%string; ("cpu variation : 4" ++ LF)%string].
Proof.
  apply (short_lines_are_read_whole ["cpu model : sw"%string;
                                     "cpu variation : 4"%string]).
  repeat constructor; simpl; lia.
Defined.

Lemma fgets_read_full (body : string) :
  forall rest : FILE,
    no_newline body = true ->
    fgets_read (String.length body) (body ++ rest)%string = (body, rest).
Proof.
  induction body as [|c body IH]; intros rest Hnl.
  - reflexivity.
  - simpl in Hnl. apply andb_true_iff in Hnl.
    destruct Hnl as [Hc Hnl]. apply negb_true_iff in Hc.
    cbn [String.length String.append fgets_read]. rewrite Hc.
    rewrite (IH rest Hnl). reflexivity.
Qed.

(** X17: a line that runs to 1023 bytes without a newline fills the
    buffer: the scan is handed these 1023 bytes as one buffer and goes on
    with what follows them as if a new line started there. *)
Theorem long_line_is_cut (body : string) (rest : FILE) :
  no_newline body = true ->
  String.length body = 1023%nat ->
  cpuinfo_lines (body ++ rest)%string = body :: cpuinfo_lines rest.
Proof.
  intros Hnl Hlen.
  assert (Hread : fgets 1024 (body ++ rest)%string = Some (body, rest)).
  { unfold fgets. replace (1024 - 1)%nat with (String.length body) by lia.
    rewrite (fgets_read_full body rest Hnl).
    destruct body; [discriminate | reflexivity]. }
  rewrite cpuinfo_lines_step, Hread. reflexivity.
Qed.

Lemma long_line_is_cut_witness :
  let filler := string_of_list_ascii (repeat "x"%char 1023) in
  cpuinfo_lines (filler ++ "cpu variation : 4" ++ LF)%string
  = filler :: cpuinfo_lines ("cpu variation : 4" ++ LF)%string.
Proof.
  intro filler.
  apply (long_line_is_cut filler ("cpu variation : 4" ++ LF)%string).
  - vm_compute. reflexivity.
  - vm_compute. reflexivity.
Defined.

Lemma string_app_assoc (a b c : string) :
  ((a ++ b) ++ c)%string = (a ++ b ++ c)%string.
Proof. induction a as [|x a IH]; simpl; [reflexivity | now rewrite IH]. Qed.

Lemma decimal_variation_line_status (ws1 ws2 : string) (ds : list nat) :
  all_whitespace ws1 = true ->
  all_whitespace ws2 = true ->
  ds <> [] ->
  Forall (fun d => (d < 10)%nat) ds ->
  decimal_value ds <= UINT_MAX ->
  let line :=
    (cpu_variation_prefix ++ ws1 ++ ":" ++ ws2 ++ decimal_string ds)%string in
  line_status (line ++ LF)%string = 0
  /\ line_value (line ++ LF)%string = decimal_value ds.
Proof.
  intros Hws1 Hws2 Hne Hds Hfit line. subst line.
  unfold line_status, line_value.
  repeat rewrite string_app_assoc.
  rewrite (decimal_variation_line ws1 ws2 LF ds 0 None Hws1 Hws2 Hne Hds
             Hfit eq_refl).
  split; reflexivity.
Qed.

(** X18: detection on a text of short lines.  When the lines of the
    source have no more than 1022 bytes, one of them is the label, white
    space, a colon, white space and a decimal numeral that fits an
    unsigned int, no line before it is malformed and no line after it is a
    variation line, detection answers 0, reports nothing and returns a
    definition with the mode, match and features that were passed in,
    whose model comes from the number the numeral denotes: core3 for 3,
    core4 for 4, and the model that was passed in for any other
    number. *)
Theorem detect_variation_in_text (fs : filesystem)
    (before after : list string) (ws1 ws2 : string) (ds : list nat)
    (uninit : Z) (cpu : virCPUDef)
    (models : option virDomainCapsCPUModels) (e : virLastError) :
  let line :=
    (cpu_variation_prefix ++ ws1 ++ ":" ++ ws2 ++ decimal_string ds)%string in
  fs CPUINFO_PATH = inr (text_of_lines (before ++ line :: after)) ->
  Forall (fun l => no_newline l = true /\ (String.length l <= 1022)%nat)
         (before ++ line :: after) ->
  Forall (fun l => line_status (l ++ LF)%string <> -1) before ->
  Forall (fun l => line_status (l ++ LF)%string = 1) after ->
  all_whitespace ws1 = true ->
  all_whitespace ws2 = true ->
  ds <> [] ->
  Forall (fun d => (d < 10)%nat) ds ->
  decimal_value ds <= UINT_MAX ->
  exists cpu' : virCPUDef,
    virCPUsw64GetHost fs uninit cpu models e = ((0, cpu'), e)
    /\ virCPUDef.mode cpu' = virCPUDef.mode cpu
    /\ virCPUDef.match_ cpu' = virCPUDef.match_ cpu
    /\ virCPUDef.features cpu' = virCPUDef.features cpu
    /\ virCPUDef.model cpu'
       = (if decimal_value ds =? 3 then Some "core3"%string
          else if decimal_value ds =? 4 then Some "core4"%string
          else virCPUDef.model cpu).
Proof.
  intros line Hfile Hshort Hbefore Hafter Hws1 Hws2 Hne Hds Hfit.
  destruct (decimal_variation_line_status ws1 ws2 ds Hws1 Hws2 Hne Hds Hfit)
    as [Hstatus Hvalue].
  fold line in Hstatus, Hvalue.
  assert (Hscan :
            sw64CPUParseCpuMode (text_of_lines (before ++ line :: after))
              uninit e
            = ((0, decimal_value ds), e)).
  { rewrite sw64CPUParseCpuMode_scan_lines.
    rewrite (cpuinfo_lines_text_of_lines _ Hshort).
    rewrite map_app. cbn [List.map]. rewrite <- Hvalue.
    apply scan_lines_last_wins.
    - apply Forall_map. exact Hbefore.
    - exact Hstatus.
    - apply Forall_map. exact Hafter. }
  destruct (get_host_after_scan fs _ uninit (decimal_value ds) cpu models
              e e Hfile Hscan)
    as (cpu' & Hcall & Hmode & Hmatch & Hfeatures & Hmodel & _).
  exists cpu'. auto.
Qed.

Lemma detect_variation_in_text_witness :
  let cpu := virCPUDef.mk VIR_CPU_MODE_CUSTOM VIR_CPU_MATCH_EXACT None [] in
  exists cpu' : virCPUDef,
    virCPUsw64GetHost
      (host_with
         (text_of_lines
            ["cpu model : sw"%string;
             ("cpu variation" ++ " " ++ ":" ++ " " ++ decimal_string [4%nat])
               %string;
             "cpu revision : 0"%string]))
      0 cpu None None
    = ((0, cpu'), None)
    /\ virCPUDef.model cpu' = Some "core4"%string.
Proof.
  intro cpu.
  destruct (detect_variation_in_text
              (host_with
                 (text_of_lines
                    ["cpu model : sw"%string;
                     ("cpu variation" ++ " " ++ ":" ++ " "
                      ++ decimal_string [4%nat])%string;
                     "cpu revision : 0"%string]))
              ["cpu model : sw"%string] ["cpu revision : 0"%string]
              " " " " [4%nat] 0 cpu None None)
    as (cpu' & Hcall & _ & _ & _ & Hmodel).
  - reflexivity.
  - repeat constructor; vm_compute; intro H; discriminate.
  - repeat constructor. vm_compute. discriminate.
  - repeat constructor.
  - reflexivity.
  - reflexivity.
  - discriminate.
  - repeat constructor.
  - vm_compute. discriminate.
  - exists cpu'. split; [exact Hcall | exact Hmodel].
Defined.

(* ===================================================================== *)
(** ** Further properties: bytes after a NUL *)
(* ===================================================================== *)

Lemma deref_c_string (s : string) : deref (c_string s) = deref s.
Proof.
  destruct s as [|c s]; simpl; [reflexivity|].
  destruct (Ascii.eqb_spec c NUL) as [-> | _]; reflexivity.
Qed.

Lemma skip_whitespace_c_string (s : string) :
  skip_whitespace (c_string s) = c_string (skip_whitespace s).
Proof.
  induction s as [|c s IH]; [reflexivity|].
  cbn [c_string skip_whitespace].
  destruct (Ascii.eqb_spec c NUL) as [-> | Hc].
  - reflexivity.
  - cbn [skip_whitespace]. destruct (g_ascii_isspace c); [exact IH|].
    cbn [c_string]. rewrite (ascii_eqb_false _ _ Hc). reflexivity.
Qed.

Lemma incr_c_string (s : string) :
  Ascii.eqb (deref s) NUL = false -> incr (c_string s) = c_string (incr s).
Proof.
  destruct s as [|c s]; simpl; [reflexivity|]. intros ->. reflexivity.
Qed.

Lemma read_digits_c_string (s : string) :
  forall acc : Z,
    read_digits (c_string s) acc
    = (fst (read_digits s acc), c_string (snd (read_digits s acc))).
Proof.
  induction s as [|c s IH]; intro acc; [reflexivity|].
  cbn [c_string read_digits].
  destruct (Ascii.eqb_spec c NUL) as [-> | Hc].
  - reflexivity.
  - cbn [read_digits]. destruct (is_digit c); [apply IH|].
    cbn [fst snd c_string]. rewrite (ascii_eqb_false _ _ Hc). reflexivity.
Qed.

Lemma STRPREFIX_c_string (prefix : string) :
  c_string prefix = prefix ->
  forall s : string,
    STRPREFIX (c_string s) prefix = STRPREFIX s prefix
    /\ (STRPREFIX s prefix = true ->
        advance (strlen prefix) (c_string s)
        = c_string (advance (strlen prefix) s)).
Proof.
  unfold STRPREFIX.
  induction prefix as [|a p IH]; intros Hp s.
  - split; [|reflexivity].
    destruct s as [|c s]; cbn [c_string];
      [|destruct (Ascii.eqb c NUL)]; reflexivity.
  - cbn [c_string] in Hp.
    destruct (Ascii.eqb_spec a NUL) as [-> | Ha]; [discriminate|].
    injection Hp as Hp. specialize (IH Hp).
    destruct s as [|c s]; [split; [reflexivity | discriminate]|].
    cbn [c_string].
    destruct (Ascii.eqb_spec c NUL) as [-> | Hc].
    + cbn [String.prefix].
      destruct (ascii_dec a NUL); [contradiction|].
      split; [reflexivity | discriminate].
    + cbn [String.prefix strlen String.length advance incr].
      destruct (ascii_dec a c); [apply IH|].
      split; [reflexivity | discriminate].
Qed.

(** X19: parsing reads a buffer as a C string: the bytes from the first
    NUL on have no influence on the status, the value or the report. *)
Theorem parse_ignores_bytes_after_NUL (str prefix : string) (mode : Z)
    (e : virLastError) :
  c_string prefix = prefix ->
  sw64CPUParseCpuModeString str prefix mode e
  = sw64CPUParseCpuModeString (c_string str) prefix mode e.
Proof.
  intro Hprefix.
  destruct (STRPREFIX_c_string prefix Hprefix str) as [Hpre Hadv].
  unfold sw64CPUParseCpuModeString. rewrite Hpre.
  destruct (STRPREFIX str prefix); [|reflexivity].
  rewrite (Hadv eq_refl). cbn [negb].
  rewrite skip_whitespace_c_string, deref_c_string.
  set (str1 := skip_whitespace (advance (strlen prefix) str)).
  destruct (Ascii.eqb (deref str1) NUL) eqn:Hnul; [reflexivity|].
  destruct (negb (Ascii.eqb (deref str1) ":")); [reflexivity|].
  rewrite (incr_c_string str1 Hnul).
  rewrite skip_whitespace_c_string, deref_c_string.
  set (str2 := skip_whitespace (incr str1)).
  destruct (Ascii.eqb (deref str2) NUL); [reflexivity|].
  unfold virStrToLong_ui.
  rewrite read_digits_c_string, deref_c_string.
  destruct (read_digits str2 0) as [val p]. cbn [fst snd].
  destruct (is_digit (deref str2) && (val <=? UINT_MAX));
    rewrite deref_c_string; reflexivity.
Qed.

Lemma parse_ignores_bytes_after_NUL_witness :
  sw64CPUParseCpuModeString
    ("cpu variation : 3" ++ String NUL "7x")%string cpu_variation_prefix 0
    None
  = sw64CPUParseCpuModeString "cpu variation : 3" cpu_variation_prefix 0
      None.
Proof.
  apply (parse_ignores_bytes_after_NUL
           ("cpu variation : 3" ++ String NUL "7x")%string
           cpu_variation_prefix 0 None).
  reflexivity.
Defined.
